(** * Verification of the CoinGecko ticker adapter ([main.py])

    A shallow embedding of [MyExchange] (symbol conversion, payload
    normalisation, market loading and the paced ticker fetch) together
    with the properties its specification states about it.

    Python values are modelled as follows.
    - [str]: Rocq [string]; a character stands for a code point below 256.
    - [float]: an IEEE-754 binary64 value, [spec_float] at precision 53
      and maximal exponent 1024.
    - [dict]: an insertion-ordered association list with unique keys
      (module [PyDict]).
    - decoded JSON: the inductive [json].
    - exceptions and the instance state: the monad [M], which threads the
      instance and the log of observable events and keeps the state reached
      when an exception is raised. *)

From Stdlib Require Import String Ascii List ZArith Lia Bool.
From Stdlib Require Import Floats.SpecFloat.
Import ListNotations.
Open Scope string_scope.
Open Scope list_scope.

(** ** Python strings *)

Module PyStr.

(** [s.startswith(p)] *)
Fixpoint startswith (p s : string) : bool :=
  match p, s with
  | EmptyString, _ => true
  | String _ _, EmptyString => false
  | String a p', String b s' => Ascii.eqb a b && startswith p' s'
  end.

(** [s.replace(old, new)] for a non-empty [old]: the scan goes left to
    right; [skip] counts the characters of the occurrence just replaced
    that are still to be dropped. *)
Fixpoint replace_from (old new : string) (skip : nat) (s : string) : string :=
  match s with
  | EmptyString => EmptyString
  | String c s' =>
      match skip with
      | S k => replace_from old new k s'
      | O =>
          if startswith old s
          then (new ++ replace_from old new (String.length old - 1) s')%string
          else String c (replace_from old new 0 s')
      end
  end.

(** [s.replace("", new)]: [new] goes before every character and at the end. *)
Fixpoint interleave (new s : string) : string :=
  match s with
  | EmptyString => new
  | String c s' => (new ++ String c (interleave new s'))%string
  end.

Definition replace (old new s : string) : string :=
  match old with
  | EmptyString => interleave new s
  | String _ _ => replace_from old new 0 s
  end.

(** The characters of a string, each as a one-character string: what
    iterating over a [str] yields. *)
Fixpoint chars (s : string) : list string :=
  match s with
  | EmptyString => []
  | String c s' => String c EmptyString :: chars s'
  end.

End PyStr.

(** ** Symbol conversion *)

Definition Symbol := string.

(** [MyExchange._convert_symbol_to_ccxt] *)
Definition _convert_symbol_to_ccxt (symbols : string) : Symbol :=
  let symbols := PyStr.replace ":" "/" symbols in
  symbols.

(** What a one-character replacement does to one character. *)
Definition colon_to_slash (c : ascii) : ascii :=
  if Ascii.eqb c ":"%char then "/"%char else c.

(** ** Python dictionaries

    A [dict] keeps its keys in insertion order; assigning to a key that is
    present replaces the value where the key already stands. *)

Module PyDict.
Section Dict.
Context {V : Type}.

Definition t := list (string * V).

(** [d.get(k)] *)
Fixpoint get (k : string) (d : t) : option V :=
  match d with
  | [] => None
  | (k', v) :: d' => if String.eqb k k' then Some v else get k d'
  end.

(** [d[k] = v] *)
Fixpoint set (k : string) (v : V) (d : t) : t :=
  match d with
  | [] => [(k, v)]
  | (k', v') :: d' =>
      if String.eqb k k' then (k', v) :: d' else (k', v') :: set k v d'
  end.

(** [d.update(other)]: one assignment per item of [other], in order. *)
Definition update (d other : t) : t :=
  fold_left (fun acc kv => set (fst kv) (snd kv) acc) other d.

Definition keys (d : t) : list string := map fst d.
Definition values (d : t) : list V := map snd d.

(** The dictionary a sequence of key/value pairs builds, later pairs
    overriding earlier ones ([dict(pairs)]). *)
Definition of_pairs (l : list (string * V)) : t := update [] l.

(** The last pair of a sequence that carries the key [k]. *)
Definition last_binding (k : string) (l : list (string * V)) : option V :=
  get k (rev l).

End Dict.
Arguments t : clear implicits.
End PyDict.

(** ** Python floats

    A [float] is a binary64 value. [float(x)] of an [int] rounds to the
    nearest value, ties to even; [float(s)] of a [str] reads a decimal
    numeral (or [inf], [infinity], [nan]) and rounds it the same way. *)

Module PyFloat.

Definition float := spec_float.
Definition prec : Z := 53.
Definition emax : Z := 1024.

(** The float nearest to an integer; an infinity when it is out of range. *)
Definition of_Z (z : Z) : float := binary_normalize prec emax z 0 false.

(** The float nearest to [(-1)^s * m * 10^e]. *)
Definition of_decimal (s : bool) (m : Z) (e : Z) : float :=
  match m with
  | Zpos p =>
      if (0 <=? e)%Z then
        match (Zpos p * 10 ^ e)%Z with
        | Zpos q => binary_round prec emax s q 0
        | _ => S754_zero s
        end
      else
        let '(q, e', l) :=
          SFdiv_core_binary prec emax (Zpos p) 0 (10 ^ (- e)) 0 in
        binary_round_aux prec emax s q e' l
  | _ => S754_zero s
  end.

(** The integer a float is equal to, when it is one. *)
Definition integer_value (f : float) : option Z :=
  match f with
  | S754_zero _ => Some 0%Z
  | S754_finite s m e =>
      let sgn := if s then (-1)%Z else 1%Z in
      if (0 <=? e)%Z then Some (sgn * (Zpos m * 2 ^ e))%Z
      else if (Zpos m mod 2 ^ (- e) =? 0)%Z
           then Some (sgn * (Zpos m / 2 ^ (- e)))%Z
           else None
  | _ => None
  end.

Definition ge0 (f : float) : bool := SFleb (S754_zero false) f.
Definition is_zero (f : float) : bool :=
  match f with S754_zero _ => true | _ => false end.

(** *** Reading a numeral *)

Definition is_space (c : ascii) : bool :=
  let n := nat_of_ascii c in
  ((9 <=? n) && (n <=? 13) || (n =? 32) || (n =? 133) || (n =? 160))%nat.

Definition digit (c : ascii) : option Z :=
  let n := nat_of_ascii c in
  if ((48 <=? n) && (n <=? 57))%nat then Some (Z.of_nat (n - 48)) else None.

Definition is_digit (c : ascii) : bool :=
  match digit c with Some _ => true | None => false end.

(** Underscores may only stand between two digits; they are dropped.
    [prev] is the character before the current one. *)
Fixpoint drop_underscores (prev : option ascii) (l : list ascii)
  : option (list ascii) :=
  match l with
  | [] =>
      match prev with
      | Some "_"%char => None
      | _ => Some []
      end
  | c :: l' =>
      if Ascii.eqb c "_"%char then
        match prev with
        | Some p => if is_digit p then drop_underscores (Some c) l' else None
        | None => None
        end
      else
        match prev with
        | Some "_"%char =>
            if is_digit c
            then option_map (cons c) (drop_underscores (Some c) l')
            else None
        | _ => option_map (cons c) (drop_underscores (Some c) l')
        end
  end.

Fixpoint lstrip (l : list ascii) : list ascii :=
  match l with
  | c :: l' => if is_space c then lstrip l' else l
  | [] => []
  end.

Definition strip (l : list ascii) : list ascii :=
  rev (lstrip (rev (lstrip l))).

(** The leading digits of [l], as a number and a count, and what follows. *)
Fixpoint digits (acc : Z) (n : Z) (l : list ascii) : Z * Z * list ascii :=
  match l with
  | c :: l' =>
      match digit c with
      | Some d => digits (10 * acc + d) (n + 1) l'
      | None => (acc, n, l)
      end
  | [] => (acc, n, [])
  end.

Definition sign (l : list ascii) : bool * list ascii :=
  match l with
  | "-"%char :: l' => (true, l')
  | "+"%char :: l' => (false, l')
  | _ => (false, l)
  end.

Definition lower (c : ascii) : ascii :=
  let n := nat_of_ascii c in
  if ((65 <=? n) && (n <=? 90))%nat then ascii_of_nat (n + 32) else c.

(** [e] or [E], an optional sign and at least one digit, up to the end. *)
Definition exponent (l : list ascii) : option Z :=
  match l with
  | [] => Some 0%Z
  | c :: l' =>
      if Ascii.eqb (lower c) "e"%char then
        let '(s, l1) := sign l' in
        let '(v, n, rest) := digits 0 0 l1 in
        match rest with
        | [] => if (n =? 0)%Z then None else Some (if s then (- v)%Z else v)
        | _ :: _ => None
        end
      else None
  end.

(** A decimal numeral: digits with an optional point, at least one digit,
    and an optional exponent. *)
Definition numeral (s : bool) (l : list ascii) : option float :=
  let '(ip, ni, l1) := digits 0 0 l in
  let '(m, nf, l2) :=
    match l1 with
    | "."%char :: l' => digits ip 0 l'
    | _ => (ip, 0%Z, l1)
    end in
  if (ni + nf =? 0)%Z then None
  else
    match exponent l2 with
    | Some e => Some (of_decimal s m (e - nf))
    | None => None
    end.

Definition special (s : bool) (l : list ascii) : option float :=
  let w := string_of_list_ascii (map lower l) in
  if String.eqb w "inf" || String.eqb w "infinity" then Some (S754_infinity s)
  else if String.eqb w "nan" then Some S754_nan
  else None.

(** [float(s)] for a string: [None] stands for [ValueError]. *)
Definition of_string (s : string) : option float :=
  match drop_underscores None (list_ascii_of_string s) with
  | None => None
  | Some l =>
      let '(sg, body) := sign (strip l) in
      match numeral sg body with
      | Some f => Some f
      | None => special sg body
      end
  end.

End PyFloat.

(** ** Decoded JSON, exceptions and results *)

#[local] Set Warnings "-register-all".
Inductive json : Type :=
| JNull
| JBool (b : bool)
| JInt (z : Z)
| JFloat (f : PyFloat.float)
| JStr (s : string)
| JList (items : list json)
| JDict (members : list (string * json)).

Inductive exn : Type :=
| KeyError (key : string)
| TypeError
| AttributeError
| ValueError
| OverflowError
| FetchError (status : Z)   (* [Exception(resp)] of a reply that is not 200 *)
| ClientError.              (* raised by the HTTP client: no reply, or a body that is not JSON *)

(** What running a piece of code gives: a value, an exception, or
    [Unmodelled] where the run leaves what this development covers (a
    market identifier that is not a string). *)
Inductive result (A : Type) : Type :=
| Return (a : A)
| Raise (e : exn)
| Unmodelled.
Arguments Return {A} a.
Arguments Raise {A} e.
Arguments Unmodelled {A}.

Definition rbind {A B} (r : result A) (k : A -> result B) : result B :=
  match r with
  | Return a => k a
  | Raise e => Raise e
  | Unmodelled => Unmodelled
  end.

Declare Scope py_scope.
Delimit Scope py_scope with py.
Notation "x <- c ;; k" := (rbind c (fun x => k))
  (at level 61, c at next level, right associativity) : py_scope.

(** The dictionary a decoded JSON object stands for. *)
Definition members_dict (members : list (string * json)) : PyDict.t json :=
  PyDict.of_pairs members.

(** [x[key]] for a string key. *)
Definition getitem (x : json) (key : string) : result json :=
  match x with
  | JDict members =>
      match PyDict.get key (members_dict members) with
      | Some v => Return v
      | None => Raise (KeyError key)
      end
  | _ => Raise TypeError
  end.

(** [x.get(key)]: only a [dict] has the method. *)
Definition get_method (x : json) (key : string) : result json :=
  match x with
  | JDict members =>
      match PyDict.get key (members_dict members) with
      | Some v => Return v
      | None => Return JNull
      end
  | _ => Raise AttributeError
  end.

(** [x + y] where one operand is known to be a [str]: the other has to
    be one too. *)
Definition add (x y : json) : result string :=
  match x, y with
  | JStr a, JStr b => Return (a ++ b)%string
  | _, _ => Raise TypeError
  end.

(** [float(x)] *)
Definition py_float (x : json) : result PyFloat.float :=
  match x with
  | JFloat f => Return f
  | JInt z =>
      match PyFloat.of_Z z with
      | S754_infinity _ => Raise OverflowError
      | f => Return f
      end
  | JBool b => Return (PyFloat.of_Z (if b then 1 else 0))
  | JStr s =>
      match PyFloat.of_string s with
      | Some f => Return f
      | None => Raise ValueError
      end
  | JNull | JList _ | JDict _ => Raise TypeError
  end.

(** The items a [for] loop over [x] visits. *)
Definition iterate (x : json) : result (list json) :=
  match x with
  | JList items => Return items
  | JDict members => Return (map JStr (PyDict.keys (members_dict members)))
  | JStr s => Return (map JStr (PyStr.chars s))
  | JNull | JBool _ | JInt _ | JFloat _ => Raise TypeError
  end.

(** ** Normalisation *)

Record TickerInfo : Type := mkTickerInfo {
  last : PyFloat.float;
  baseVolume : PyFloat.float;
  quoteVolume : PyFloat.float
}.

Section Normalize.
Local Open Scope py_scope.

(** The body of the loop of [normalize_data]: the key and the record one
    raw entry gives. *)
Definition normalize_entry (entry : json) : result (Symbol * TickerInfo) :=
  base <- get_method entry "base" ;;
  left <- add base (JStr ":") ;;
  target <- get_method entry "target" ;;
  pair <- add (JStr left) target ;;
  let symbol := _convert_symbol_to_ccxt pair in
  raw_last <- getitem entry "last" ;;
  last <- py_float raw_last ;;
  raw_volume <- getitem entry "volume" ;;
  baseVolume <- py_float raw_volume ;;
  converted <- getitem entry "converted_volume" ;;
  raw_usd <- getitem converted "usd" ;;
  quoteVolume <- py_float raw_usd ;;
  Return (symbol, mkTickerInfo last baseVolume quoteVolume).

Fixpoint normalize_loop (results : list json)
    (normalized_data : PyDict.t TickerInfo) : result (PyDict.t TickerInfo) :=
  match results with
  | [] => Return normalized_data
  | entry :: rest =>
      kv <- normalize_entry entry ;;
      normalize_loop rest (PyDict.set (fst kv) (snd kv) normalized_data)
  end.

(** [MyExchange.normalize_data] *)
Definition normalize_data (data : json) : result (PyDict.t TickerInfo) :=
  results <- iterate data ;;
  normalize_loop results [].

End Normalize.

(** ** The exchange instance and its environment *)

(** What a run does that can be seen from outside, in the order it
    happens. *)
Inductive event : Type :=
| Get (url : string)      (* [session.get(url)] *)
| Print (line : string)   (* [print(line)] *)
| Sleep (seconds : Z).    (* [time.sleep(seconds)] *)

(** What a GET comes back with. *)
Inductive reply : Type :=
| NoReply                                   (* the client raises *)
| Reply (status : Z) (body : option json).  (* [body = None]: not JSON *)

(** The fields [__init__] sets and nothing reassigns. *)
Definition id : string := "coingecko".
Definition base_url : string := "https://api.coingecko.com/".

(** The mutable part of an instance, [self.markets], and the log of events
    so far. *)
Record world : Type := mkWorld {
  markets : PyDict.t string;
  log : list event
}.

(** [MyExchange.__init__], on a fresh log. *)
Definition init : world := mkWorld [] [].

Definition M (A : Type) : Type := world -> result A * world.

Definition ret {A} (a : A) : M A := fun w => (Return a, w).
Definition raise {A} (e : exn) : M A := fun w => (Raise e, w).
Definition unmodelled {A} : M A := fun w => (Unmodelled, w).
Definition lift {A} (r : result A) : M A := fun w => (r, w).

Definition bind {A B} (c : M A) (k : A -> M B) : M B :=
  fun w =>
    match c w with
    | (Return a, w') => k a w'
    | (Raise e, w') => (Raise e, w')
    | (Unmodelled, w') => (Unmodelled, w')
    end.

Declare Scope m_scope.
Delimit Scope m_scope with m.
Notation "x <- c ;; k" := (bind c (fun x => k))
  (at level 61, c at next level, right associativity) : m_scope.
Notation "c ;; k" := (bind c (fun _ => k))
  (at level 61, right associativity) : m_scope.

Definition emit (e : event) : M unit :=
  fun w => (Return tt, mkWorld (markets w) (log w ++ [e])).

Definition get_markets : M (PyDict.t string) :=
  fun w => (Return (markets w), w).

(** [self.markets[key] = value] *)
Definition set_market (key value : string) : M unit :=
  fun w => (Return tt, mkWorld (PyDict.set key value (markets w)) (log w)).

Definition listing_url : string :=
  "https://api.coingecko.com/api/v3/coins/markets?vs_currency=usd".

Definition ticker_url (symbol : string) : string :=
  (base_url ++ ("api/v3/coins/" ++ symbol ++ "/tickers?exchange_ids=binance"))
  %string.

Definition sleep_seconds : Z := 15.

Section Exchange.

(** The remote side: the reply to a GET, given everything that happened
    before it. *)
Variable net : list event -> string -> reply.

Local Open Scope m_scope.

Definition http_get (url : string) : M reply :=
  fun w => (Return (net (log w) url), mkWorld (markets w) (log w ++ [Get url])).

(** [BaseExchange.fetch_data] *)
Definition fetch_data (url : string) : M json :=
  resp <- http_get url ;;
  match resp with
  | Reply status body =>
      if (status =? 200)%Z then
        match body with
        | Some data => ret data
        | None => raise ClientError
        end
      else raise (FetchError status)
  | NoReply => raise ClientError
  end.

(** The loop of [load_markets] over the items of the listing. A market
    identifier is a string in the listing the adapter is written for; a
    [list] or a [dict] in its place cannot be a key, and [None], a
    boolean or a number is left out of the model. *)
Fixpoint register (items : list json) : M unit :=
  match items with
  | [] => ret tt
  | item :: rest =>
      symbol <- lift (getitem item "id") ;;
      match symbol with
      | JStr s => set_market s s
      | JList _ | JDict _ => raise TypeError   (* unhashable key *)
      | JNull | JBool _ | JInt _ | JFloat _ => unmodelled
      end ;;
      register rest
  end.

(** [MyExchange.load_markets] *)
Definition load_markets : M unit :=
  let url := listing_url in
  response <- http_get url ;;
  match response with
  | Reply status body =>
      if (status =? 200)%Z then
        match body with
        | Some data =>
            items <- lift (iterate data) ;;
            register items
        | None => raise ClientError
        end
      else raise (FetchError status)
  | NoReply => raise ClientError
  end.

(** The loop of [fetch_tickers] over the values of the registry. *)
Fixpoint fetch_loop (symbols : list string) (result : PyDict.t TickerInfo)
  : M (PyDict.t TickerInfo) :=
  match symbols with
  | [] => ret result
  | symbol :: rest =>
      emit (Print ("Fetching: " ++ symbol)) ;;
      data <- fetch_data (ticker_url symbol) ;;
      tickers <- lift (getitem data "tickers") ;;
      batch <- lift (normalize_data tickers) ;;
      let result := PyDict.update result batch in
      emit (Sleep sleep_seconds) ;;
      fetch_loop rest result
  end.

(** [MyExchange.fetch_tickers] *)
Definition fetch_tickers : M (PyDict.t TickerInfo) :=
  registry <- get_markets ;;
  match registry with
  | [] => load_markets
  | _ :: _ => ret tt
  end ;;
  registry <- get_markets ;;
  fetch_loop (PyDict.values registry) [].

End Exchange.

(** ** Vocabulary of the properties *)

(** Non-negative volumes in every record of every result, as the
    specification words it. *)
Definition volumes_never_negative : Prop :=
  forall data d s t,
    normalize_data data = Return d ->
    PyDict.get s d = Some t ->
    PyFloat.ge0 (baseVolume t) = true /\ PyFloat.ge0 (quoteVolume t) = true.

Definition has_key (x : json) (key : string) : bool :=
  match getitem x key with
  | Return _ => true
  | _ => false
  end.

(** The entry has no ["base"], ["target"], ["last"], ["volume"] or
    ["converted_volume"], or its ["converted_volume"] has no ["usd"]. *)
Definition lacks_required (entry : json) : bool :=
  negb (has_key entry "base") || negb (has_key entry "target") ||
  negb (has_key entry "last") || negb (has_key entry "volume") ||
  match getitem entry "converted_volume" with
  | Return converted => negb (has_key converted "usd")
  | _ => true
  end.

(** What one GET of a ticker endpoint contributes: the normalised batch,
    or the exception that ends the fetch. *)
Definition ticker_batch (resp : reply) : result (PyDict.t TickerInfo) :=
  match resp with
  | Reply status body =>
      if (status =? 200)%Z then
        match body with
        | Some data =>
            rbind (getitem data "tickers") normalize_data
        | None => Raise ClientError
        end
      else Raise (FetchError status)
  | NoReply => Raise ClientError
  end.

(** The events of one market that is fetched and merged. *)
Definition market_events (symbol : string) : list event :=
  [Print ("Fetching: " ++ symbol); Get (ticker_url symbol); Sleep 15].

(** The events of a market whose fetch raises. *)
Definition failed_events (symbol : string) : list event :=
  [Print ("Fetching: " ++ symbol); Get (ticker_url symbol)].

(** [m'] has the keys of [m], in the same order, then new ones, and every
    entry of [m'] is either an entry of [m] or maps a key to itself. *)
Definition grows (m m' : PyDict.t string) : Prop :=
  (exists new, PyDict.keys m' = PyDict.keys m ++ new) /\
  (forall k v, PyDict.get k m' = Some v -> v = k \/ PyDict.get k m = Some v).

Definition identity_registry (m : PyDict.t string) : Prop :=
  forall k v, PyDict.get k m = Some v -> v = k.

(** The registry the loop of [fetch_tickers] runs over: the registry of
    the instance when it is not empty, and otherwise the one the lazy
    [load_markets] leaves. *)
Definition fetch_registry (net : list event -> string -> reply) (w : world)
  : PyDict.t string :=
  match markets w with
  | [] => markets (snd (load_markets net w))
  | _ :: _ => markets w
  end.

(** The state in which that loop starts. *)
Definition fetch_start (net : list event -> string -> reply) (w : world)
  : world :=
  match markets w with
  | [] => snd (load_markets net w)
  | _ :: _ => w
  end.

(** ** Concrete payloads, registries and remote sides *)

Definition listing_response : json :=
  JList [JDict [("id", JStr "bitcoin")]].

Definition ticker_response : json :=
  JDict [("tickers",
          JList [JDict [("base", JStr "BTC"); ("target", JStr "USDT");
                        ("last", JStr "57000"); ("volume", JStr "11328");
                        ("converted_volume", JDict [("usd", JStr "3456789")])]])].

(** [TickerInfo(last=57000.0, baseVolume=11328.0, quoteVolume=3456789.0)] *)
Definition btc_usdt_ticker : TickerInfo :=
  mkTickerInfo (S754_finite false 7834020347904000 (-37))
               (S754_finite false 6227633859723264 (-39))
               (S754_finite false 7423397852086272 (-31)).

(** A remote side that serves the listing and the ticker of "bitcoin". *)
Definition bitcoin_net (_ : list event) (url : string) : reply :=
  if String.eqb url listing_url then Reply 200 (Some listing_response)
  else if String.eqb url (ticker_url "bitcoin")
       then Reply 200 (Some ticker_response)
       else NoReply.

(** A remote side whose listing endpoint answers 404. *)
Definition not_found_net (_ : list event) (_ : string) : reply :=
  Reply 404 None.

(** Two entries for one pair, the later with another price. *)
Definition btc_entry (price : string) : json :=
  JDict [("base", JStr "BTC"); ("target", JStr "USDT");
         ("last", JStr price); ("volume", JStr "11328");
         ("converted_volume", JDict [("usd", JStr "3456789")])].

Definition btc_ticker_58000 : TickerInfo :=
  mkTickerInfo (S754_finite false 7971459301376000 (-37))
               (S754_finite false 6227633859723264 (-39))
               (S754_finite false 7423397852086272 (-31)).

(** A payload whose two volumes are negative, and the record it gives. *)
Definition negative_volume_payload : json :=
  JList [JDict [("base", JStr "BTC"); ("target", JStr "USDT");
                ("last", JStr "57000"); ("volume", JStr "-11328");
                ("converted_volume", JDict [("usd", JInt (-3456789))])]].

Definition negative_volume_ticker : TickerInfo :=
  mkTickerInfo (S754_finite false 7834020347904000 (-37))
               (S754_finite true 6227633859723264 (-39))
               (S754_finite true 7423397852086272 (-31)).

(** Two markets whose tickers both quote BTC/USDT. *)
Definition two_markets : world :=
  mkWorld [("bitcoin", "bitcoin"); ("wrapped-bitcoin", "wrapped-bitcoin")] [].

Definition tickers_body (entries : list json) : json :=
  JDict [("tickers", JList entries)].

Definition two_markets_net (_ : list event) (url : string) : reply :=
  if String.eqb url (ticker_url "bitcoin")
  then Reply 200 (Some (tickers_body [btc_entry "57000"]))
  else if String.eqb url (ticker_url "wrapped-bitcoin")
       then Reply 200 (Some (tickers_body [btc_entry "58000"]))
       else NoReply.

Definition two_markets_batch (m : string) : PyDict.t TickerInfo :=
  if String.eqb m "bitcoin" then [("BTC/USDT", btc_usdt_ticker)]
  else [("BTC/USDT", btc_ticker_58000)].

(** The listing of those two markets, and remote sides that serve it to
    an instance whose registry is still empty. *)
Definition two_markets_listing : json :=
  JList [JDict [("id", JStr "bitcoin")];
         JDict [("id", JStr "wrapped-bitcoin")]].

Definition with_listing (net : list event -> string -> reply)
    (h : list event) (url : string) : reply :=
  if String.eqb url listing_url then Reply 200 (Some two_markets_listing)
  else net h url.

(** A ticker entry without its ["last"] field. *)
Definition entry_without_last : json :=
  JDict [("base", JStr "BTC"); ("target", JStr "USDT");
         ("volume", JStr "11328");
         ("converted_volume", JDict [("usd", JStr "3456789")])].

Definition broken_net (_ : list event) (url : string) : reply :=
  if String.eqb url (ticker_url "bitcoin")
  then Reply 200 (Some (tickers_body [btc_entry "57000"]))
  else Reply 200 (Some (tickers_body [btc_entry "58000"; entry_without_last])).

(** ** The entry point

    [main] prints the registry and every ticker. What [print] writes for a
    [dict] and for a [TickerInfo] is left open: [show_markets] and
    [show_ticker] stand for it, and nothing proved about [main] depends on
    them. *)

Section Main.

Variable net : list event -> string -> reply.
Variable show_markets : PyDict.t string -> string.
Variable show_ticker : TickerInfo -> string.

Local Open Scope m_scope.

(** The loop of [main] over [tickers.items()]. *)
Fixpoint print_items (items : list (Symbol * TickerInfo)) : M unit :=
  match items with
  | [] => ret tt
  | (symbol, prop) :: rest =>
      emit (Print (symbol ++ " " ++ show_ticker prop)) ;;
      print_items rest
  end.

(** [main]: the instance is a new one, so its registry starts empty. *)
Definition main : M unit :=
  fun w =>
    (load_markets net ;;
     registry <- get_markets ;;
     emit (Print (show_markets registry)) ;;
     tickers <- fetch_tickers net ;;
     print_items tickers)
      (mkWorld (markets init) (log w)).

End Main.

(** ** Vocabulary of the further properties *)

(** [c in s] *)
Fixpoint has_char (c : ascii) (s : string) : bool :=
  match s with
  | EmptyString => false
  | String a s' => Ascii.eqb a c || has_char c s'
  end.

(** The URLs a sequence of events requests, in order. *)
Fixpoint requests (events : list event) : list string :=
  match events with
  | [] => []
  | Get url :: rest => url :: requests rest
  | _ :: rest => requests rest
  end.

(** The seconds a sequence of events sleeps. *)
Fixpoint total_sleep (events : list event) : Z :=
  match events with
  | [] => 0
  | Sleep seconds :: rest => seconds + total_sleep rest
  | _ :: rest => total_sleep rest
  end.

(** The line [main] prints for an item of the result. *)
Definition item_line (show_ticker : TickerInfo -> string)
    (kv : Symbol * TickerInfo) : event :=
  Print (fst kv ++ " " ++ show_ticker (snd kv)).

(** The registry entries a list of identifiers gives. *)
Definition identity_pairs (ids : list string) : list (string * string) :=
  map (fun s => (s, s)) ids.

(** The item of a listing carries the string identifier [s]. *)
Definition has_id (item : json) (s : string) : Prop :=
  getitem item "id" = Return (JStr s).

(** The entry normalises to the pair [kv]. *)
Definition normalizes_to (entry : json) (kv : Symbol * TickerInfo) : Prop :=
  normalize_entry entry = Return kv.

(** ** Concrete inputs of the further properties *)

(** A listing whose second item has no ["id"]. *)
Definition listing_with_bad_item : json :=
  JList [JDict [("id", JStr "bitcoin")]; JDict [("symbol", JStr "btc")];
         JDict [("id", JStr "tether")]].

Definition bad_listing_net (_ : list event) (_ : string) : reply :=
  Reply 200 (Some listing_with_bad_item).

(** A remote side whose listing holds no market. *)
Definition empty_listing_net (_ : list event) (_ : string) : reply :=
  Reply 200 (Some (JList [])).

(** A remote side that serves "bitcoin" and answers 503 for every other
    ticker. *)
Definition second_market_down_net (_ : list event) (url : string) : reply :=
  if String.eqb url (ticker_url "bitcoin")
  then Reply 200 (Some (tickers_body [btc_entry "57000"]))
  else Reply 503 None.

Definition bitcoin_batch (_ : string) : PyDict.t TickerInfo :=
  [("BTC/USDT", btc_usdt_ticker)].

(** An entry whose volume is not a number and that has no
    ["converted_volume"]. *)
Definition entry_bad_volume : json :=
  JDict [("base", JStr "BTC"); ("target", JStr "USDT");
         ("last", JStr "57000"); ("volume", JStr "abc")].

(** Printers that write nothing. *)
Definition blank_markets (_ : PyDict.t string) : string := "".
Definition blank_ticker (_ : TickerInfo) : string := "".

(** * Properties *)

(** ** Floats read from strings *)

Example float_of_string_examples :
  PyFloat.of_string "57000" = Some (S754_finite false 7834020347904000 (-37)) /\
  PyFloat.of_string "0.1" = Some (S754_finite false 7205759403792794 (-56)) /\
  PyFloat.of_string " -1_0.5e-1 " = Some (S754_finite true 4728779608739021 (-52)) /\
  PyFloat.of_string "-0" = Some (S754_zero true) /\
  PyFloat.of_string "1e400" = Some (S754_infinity false) /\
  PyFloat.of_string "4.9e-324" = Some (S754_finite false 1 (-1074)) /\
  PyFloat.of_string "-Infinity" = Some (S754_infinity true) /\
  PyFloat.of_string "NaN" = Some S754_nan /\
  PyFloat.of_string "1e" = None /\
  PyFloat.of_string "1__0" = None /\
  PyFloat.of_string "" = None /\
  PyFloat.of_Z 9007199254740993 = S754_finite false 4503599627370496 1.
Proof. repeat split; vm_compute; reflexivity. Qed.

(** ** Symbol conversion *)

Lemma replace_colon_cons (c : ascii) (s : string) :
  PyStr.replace ":" "/" (String c s) =
  String (colon_to_slash c) (PyStr.replace ":" "/" s).
Proof.
  unfold PyStr.replace, colon_to_slash.
  cbn [PyStr.replace_from PyStr.startswith String.length Nat.sub].
  rewrite andb_true_r, (Ascii.eqb_sym c ":"%char).
  destruct (Ascii.eqb ":"%char c); reflexivity.
Qed.

Lemma convert_length (s : string) :
  String.length (_convert_symbol_to_ccxt s) = String.length s.
Proof.
  unfold _convert_symbol_to_ccxt.
  induction s as [| c s IH]; [reflexivity |].
  rewrite replace_colon_cons. cbn [String.length]. now rewrite IH.
Qed.

Lemma convert_get (s : string) (i : nat) :
  String.get i (_convert_symbol_to_ccxt s) =
  option_map colon_to_slash (String.get i s).
Proof.
  unfold _convert_symbol_to_ccxt. revert i.
  induction s as [| c s IH]; intros i; [reflexivity |].
  rewrite replace_colon_cons.
  destruct i as [| i]; cbn [String.get option_map]; [reflexivity |].
  apply IH.
Qed.

(** C2: the conversion keeps the length, turns each ':' into '/' and
    leaves every other character, letter case included, as it is;
    "btc:usdt" gives "btc/usdt" and not "BTC/USDT". *)
Theorem convert_symbol_replaces_colons_only :
  (forall s : string,
      String.length (_convert_symbol_to_ccxt s) = String.length s /\
      forall i : nat,
        String.get i (_convert_symbol_to_ccxt s) =
        option_map (fun c => if Ascii.eqb c ":"%char then "/"%char else c)
                   (String.get i s)) /\
  _convert_symbol_to_ccxt "btc:usdt" = "btc/usdt" /\
  _convert_symbol_to_ccxt "btc:usdt" <> "BTC/USDT".
Proof.
  split; [| split].
  - intros s. split; [apply convert_length | intros i; apply convert_get].
  - reflexivity.
  - discriminate.
Qed.

(** ** Dictionaries *)

Module PyDictFacts.
Import PyDict.
Section Facts.
Context {V : Type}.
Implicit Types (k : string) (v : V) (d other : PyDict.t V).
Implicit Types (l : list (string * V)).

Lemma get_set_same k v d : get k (set k v d) = Some v.
Proof.
  induction d as [| [k' v'] d IH]; simpl.
  - now rewrite String.eqb_refl.
  - destruct (String.eqb k k') eqn:E; simpl; rewrite E; auto.
Qed.

Lemma get_set_other k k' v d : k <> k' -> get k (set k' v d) = get k d.
Proof.
  intros Hne. induction d as [| [k0 v0] d IH]; simpl.
  - now rewrite (proj2 (String.eqb_neq k k')).
  - destruct (String.eqb k' k0) eqn:E; simpl.
    + apply String.eqb_eq in E. subst k0.
      now rewrite (proj2 (String.eqb_neq k k')).
    + now rewrite IH.
Qed.

Lemma get_app k l1 l2 :
  get k (l1 ++ l2) =
  match get k l1 with Some v => Some v | None => get k l2 end.
Proof.
  induction l1 as [| [k' v'] l1 IH]; simpl; [reflexivity |].
  destruct (String.eqb k k'); auto.
Qed.

(** After an update a key holds the value of the last item of [other]
    that carries it, and its old value when there is none. *)
Lemma get_update k other : forall d,
  get k (update d other) =
  match last_binding k other with
  | Some v => Some v
  | None => get k d
  end.
Proof.
  unfold update, last_binding.
  induction other as [| [k' v'] other IH]; intros d; simpl; [reflexivity |].
  rewrite IH, get_app. destruct (get k (rev other)); [reflexivity |].
  simpl. destruct (String.eqb k k') eqn:E.
  - apply String.eqb_eq in E. subst k'. apply get_set_same.
  - apply get_set_other. now apply String.eqb_neq.
Qed.

Lemma keys_set k v d :
  keys (set k v d) =
  match get k d with Some _ => keys d | None => keys d ++ [k] end.
Proof.
  induction d as [| [k' v'] d IH]; simpl; [reflexivity |].
  destruct (String.eqb k k'); simpl; [reflexivity |].
  rewrite IH. now destruct (get k d).
Qed.

Lemma get_None_keys k d : get k d = None <-> ~ In k (keys d).
Proof.
  induction d as [| [k' v'] d IH]; simpl.
  - tauto.
  - destruct (String.eqb_spec k k') as [-> | Hne].
    + split; [discriminate | intros H; exfalso; apply H; now left].
    + rewrite IH. split; intros H; [intros [E | E]; congruence | tauto].
Qed.

(** Assignment keeps the keys distinct. *)
Lemma NoDup_set k v d : NoDup (keys d) -> NoDup (keys (set k v d)).
Proof.
  intros Hd. rewrite keys_set. destruct (get k d) eqn:E; [assumption |].
  apply get_None_keys in E.
  apply NoDup_app; [assumption | repeat constructor; intros [] |].
  intros x Hx [<- | []]. contradiction.
Qed.

Lemma NoDup_update other : forall d,
  NoDup (keys d) -> NoDup (keys (update d other)).
Proof.
  unfold update. induction other as [| kv other IH]; intros d Hd; simpl.
  - assumption.
  - apply IH, NoDup_set, Hd.
Qed.

(** With distinct keys the first pair for a key is also the last. *)
Lemma last_binding_NoDup k d :
  NoDup (keys d) -> last_binding k d = get k d.
Proof.
  unfold last_binding. induction d as [| [k' v'] d IH]; intros Hd.
  - reflexivity.
  - inversion Hd as [| ? ? Hnotin Hd']; subst. simpl.
    rewrite get_app, IH by assumption. simpl.
    destruct (String.eqb_spec k k') as [-> | Hne].
    + apply get_None_keys in Hnotin. now rewrite Hnotin.
    + now destruct (get k d).
Qed.

End Facts.
End PyDictFacts.

(** ** Normalisation *)

Lemma rbind_Return {A B} (r : result A) (k : A -> result B) (b : B) :
  rbind r k = Return b -> exists a, r = Return a /\ k a = Return b.
Proof. destruct r; simpl; intros H; try discriminate. eauto. Qed.

Ltac rbind_inv H :=
  let a := fresh "x" in
  let Ha := fresh "E" in
  apply rbind_Return in H; destruct H as (a & Ha & H).

(** A loop that returns went through every entry, and its result is the
    accumulator updated with the pairs of the entries in order. *)
Lemma normalize_loop_Return results : forall acc d,
  normalize_loop results acc = Return d ->
  exists kvs,
    Forall2 (fun e kv => normalize_entry e = Return kv) results kvs /\
    d = PyDict.update acc kvs.
Proof.
  induction results as [| e results IH]; intros acc d H; simpl in H.
  - injection H as <-. exists []. split; [constructor | reflexivity].
  - rbind_inv H. apply IH in H. destruct H as (kvs & Hall & ->).
    exists (x :: kvs). split; [now constructor | reflexivity].
Qed.

Lemma normalize_loop_complete results kvs : forall acc,
  Forall2 (fun e kv => normalize_entry e = Return kv) results kvs ->
  normalize_loop results acc = Return (PyDict.update acc kvs).
Proof.
  intros acc H. revert acc.
  induction H as [| e kv results kvs He _ IH]; intros acc; simpl.
  - reflexivity.
  - rewrite He. simpl. apply IH.
Qed.

Lemma normalize_loop_NoDup results acc d :
  NoDup (PyDict.keys acc) ->
  normalize_loop results acc = Return d -> NoDup (PyDict.keys d).
Proof.
  intros Hacc H. apply normalize_loop_Return in H.
  destruct H as (kvs & _ & ->). now apply PyDictFacts.NoDup_update.
Qed.

(** The mapping [normalize_data] returns has distinct keys. *)
Lemma normalize_data_NoDup data d :
  normalize_data data = Return d -> NoDup (PyDict.keys d).
Proof.
  unfold normalize_data. intros H. rbind_inv H.
  eapply normalize_loop_NoDup; [| exact H]. constructor.
Qed.

Lemma Forall2_In_right {A B} (R : A -> B -> Prop) l k b :
  Forall2 R l k -> In b k -> exists a, In a l /\ R a b.
Proof.
  induction 1 as [| a b' l k Hab _ IH]; intros Hin; [destruct Hin |].
  destruct Hin as [<- | Hin].
  - exists a. split; [now left | assumption].
  - destruct (IH Hin) as (a' & Ha' & HR). exists a'. split; [now right | assumption].
Qed.

Lemma get_rev_skip {V} (s : string) (kvs : list (string * V)) :
  Forall (fun kv => fst kv <> s) kvs -> PyDict.get s (rev kvs) = None.
Proof.
  intros H. apply PyDictFacts.get_None_keys. unfold PyDict.keys.
  rewrite map_rev, <- in_rev, in_map_iff. intros ((k & v) & Hk & Hin).
  rewrite Forall_forall in H. apply (H _ Hin). exact Hk.
Qed.

(** C9: when two entries of one batch normalise to the same symbol and no
    entry after the second one does, the mapping [normalize_data] returns
    holds the record built from the second, later entry. *)
Theorem normalize_data_later_entry_wins
    (before : list json) (e1 : json) (between : list json) (e2 : json)
    (after : list json) (s : Symbol) (t1 t2 : TickerInfo)
    (d : PyDict.t TickerInfo) :
  normalize_entry e1 = Return (s, t1) ->
  normalize_entry e2 = Return (s, t2) ->
  (forall e kv, In e after -> normalize_entry e = Return kv -> fst kv <> s) ->
  normalize_data (JList (before ++ e1 :: between ++ e2 :: after)) = Return d ->
  PyDict.get s d = Some t2.
Proof.
  intros _ H2 Hafter H. unfold normalize_data in H. simpl in H.
  apply normalize_loop_Return in H. destruct H as (kvs & Hall & ->).
  apply Forall2_app_inv_l in Hall.
  destruct Hall as (k1 & k' & _ & Hall & ->).
  inversion Hall as [| ? kv1 ? k'' _ Hall' ]; subst.
  apply Forall2_app_inv_l in Hall'.
  destruct Hall' as (k2 & k3 & _ & Hall' & ->).
  inversion Hall' as [| ? kv2 ? k4 He2 Hall'' ]; subst.
  rewrite H2 in He2. injection He2 as <-.
  rewrite PyDictFacts.get_update. unfold PyDict.last_binding.
  assert (Hskip : PyDict.get s (rev k4) = None).
  { apply get_rev_skip. apply Forall_forall. intros kv Hin.
    destruct (Forall2_In_right _ _ _ _ Hall'' Hin) as (e & He & Hkv).
    eapply Hafter; eassumption. }
  rewrite rev_app_distr. simpl. rewrite rev_app_distr. simpl.
  rewrite <- !app_assoc, PyDictFacts.get_app, Hskip. simpl.
  now rewrite String.eqb_refl.
Qed.

Lemma add_Return x y s :
  add x y = Return s -> exists a b, x = JStr a /\ y = JStr b /\ s = (a ++ b)%string.
Proof.
  destruct x; simpl; try discriminate. destruct y; simpl; try discriminate.
  intros H. injection H as <-. eauto.
Qed.

(** Where the key and the three fields of a normalised entry come from. *)
Lemma normalize_entry_Return entry s t :
  normalize_entry entry = Return (s, t) ->
  exists base target raw_last raw_volume converted raw_usd,
    get_method entry "base" = Return (JStr base) /\
    get_method entry "target" = Return (JStr target) /\
    s = _convert_symbol_to_ccxt ((base ++ ":") ++ target) /\
    getitem entry "last" = Return raw_last /\
    py_float raw_last = Return (last t) /\
    getitem entry "volume" = Return raw_volume /\
    py_float raw_volume = Return (baseVolume t) /\
    getitem entry "converted_volume" = Return converted /\
    getitem converted "usd" = Return raw_usd /\
    py_float raw_usd = Return (quoteVolume t).
Proof.
  unfold normalize_entry. intros H.
  rbind_inv H. rename x into base, E into Hbase.
  rbind_inv H. rename x into left, E into Hleft.
  rbind_inv H. rename x into target, E into Htarget.
  rbind_inv H. rename x into pair, E into Hpair.
  rbind_inv H. rename x into raw_last, E into Hlast.
  rbind_inv H. rename x into flast, E into Hflast.
  rbind_inv H. rename x into raw_volume, E into Hvolume.
  rbind_inv H. rename x into fvolume, E into Hfvolume.
  rbind_inv H. rename x into converted, E into Hconv.
  rbind_inv H. rename x into raw_usd, E into Husd.
  rbind_inv H. rename x into fusd, E into Hfusd.
  injection H as <- <-.
  apply add_Return in Hleft. destruct Hleft as (b & c & -> & Hc & ->).
  injection Hc as <-.
  apply add_Return in Hpair. destruct Hpair as (b' & tg & Hb' & -> & ->).
  injection Hb' as <-.
  exists b, tg, raw_last, raw_volume, converted, raw_usd.
  tauto.
Qed.

Lemma normalize_loop_In results : forall acc d s t,
  normalize_loop results acc = Return d ->
  PyDict.get s d = Some t ->
  PyDict.get s acc = Some t \/
  exists entry, In entry results /\ normalize_entry entry = Return (s, t).
Proof.
  induction results as [| e results IH]; intros acc d s t H Hget; simpl in H.
  - injection H as <-. now left.
  - rbind_inv H. destruct (IH _ _ _ _ H Hget) as [Hacc | (e' & Hin & He')].
    + destruct x as [k v]. simpl in Hacc.
      destruct (String.eqb_spec s k) as [-> | Hne].
      * rewrite PyDictFacts.get_set_same in Hacc. injection Hacc as ->.
        right. exists e. split; [now left | assumption].
      * rewrite PyDictFacts.get_set_other in Hacc by assumption. now left.
    + right. exists e'. split; [now right | assumption].
Qed.

(** Every record of a normalisation result was built from an entry of the
    payload. *)
Lemma normalize_data_In data d s t :
  normalize_data data = Return d ->
  PyDict.get s d = Some t ->
  exists results entry,
    iterate data = Return results /\ In entry results /\
    normalize_entry entry = Return (s, t).
Proof.
  unfold normalize_data. intros H Hget. rbind_inv H.
  destruct (normalize_loop_In _ _ _ _ _ H Hget) as [Hacc | (e & Hin & He)].
  - discriminate.
  - eauto.
Qed.

(** C7, as stated, fails: a payload whose volumes are negative is accepted
    and the negative values reach the record. *)
Lemma volumes_never_negative_fails : ~ volumes_never_negative.
Proof.
  intros H.
  destruct (H negative_volume_payload
              [("BTC/USDT",
                mkTickerInfo (S754_finite false 7834020347904000 (-37))
                             (S754_finite true 6227633859723264 (-39))
                             (S754_finite true 7423397852086272 (-31)))]
              "BTC/USDT"
              (mkTickerInfo (S754_finite false 7834020347904000 (-37))
                            (S754_finite true 6227633859723264 (-39))
                            (S754_finite true 7423397852086272 (-31)))
              eq_refl eq_refl) as [Hb _].
  discriminate Hb.
Qed.

(** C7, amended: the two volumes of every record of a normalisation result
    are [float(entry["volume"])] and
    [float(entry["converted_volume"]["usd"])] of an entry of the payload,
    as converted and with no check of sign or of zero; so a volume is
    non-negative, or non-zero, exactly when the converted source value is. *)
Theorem normalize_data_volumes_are_source_values
    (data : json) (d : PyDict.t TickerInfo) (s : Symbol) (t : TickerInfo) :
  normalize_data data = Return d ->
  PyDict.get s d = Some t ->
  exists results entry raw_volume converted raw_usd,
    iterate data = Return results /\ In entry results /\
    getitem entry "volume" = Return raw_volume /\
    py_float raw_volume = Return (baseVolume t) /\
    getitem entry "converted_volume" = Return converted /\
    getitem converted "usd" = Return raw_usd /\
    py_float raw_usd = Return (quoteVolume t).
Proof.
  intros H Hget.
  destruct (normalize_data_In _ _ _ _ H Hget)
    as (results & entry & Hit & Hin & He).
  apply normalize_entry_Return in He.
  destruct He as (b & tg & rl & rv & cv & ru & _ & _ & _ & _ & _
                  & Hv & Hfv & Hc & Hu & Hfu).
  exists results, entry, rv, cv, ru. tauto.
Qed.

(** *** Entries that lack a field *)

Lemma rbind_modelled {A B} (r : result A) (k : A -> result B) :
  r <> Unmodelled -> (forall a, k a <> Unmodelled) -> rbind r k <> Unmodelled.
Proof. destruct r; simpl; auto; congruence. Qed.

Lemma getitem_modelled x key : getitem x key <> Unmodelled.
Proof.
  destruct x; simpl; try discriminate.
  destruct (PyDict.get key (members_dict members)); discriminate.
Qed.

Lemma get_method_modelled x key : get_method x key <> Unmodelled.
Proof.
  destruct x; simpl; try discriminate.
  destruct (PyDict.get key (members_dict members)); discriminate.
Qed.

Lemma add_modelled x y : add x y <> Unmodelled.
Proof. destruct x; simpl; try discriminate. destruct y; discriminate. Qed.

Lemma py_float_modelled x : py_float x <> Unmodelled.
Proof.
  destruct x; simpl; try discriminate.
  - destruct (PyFloat.of_Z z); discriminate.
  - destruct (PyFloat.of_string s); discriminate.
Qed.

Lemma iterate_modelled x : iterate x <> Unmodelled.
Proof. destruct x; discriminate. Qed.

Create HintDb modelled.
#[local] Hint Resolve getitem_modelled get_method_modelled add_modelled
  py_float_modelled iterate_modelled : modelled.

Lemma normalize_entry_modelled entry : normalize_entry entry <> Unmodelled.
Proof.
  unfold normalize_entry.
  repeat (apply rbind_modelled; [auto with modelled | intros ?]).
  discriminate.
Qed.

Lemma normalize_loop_modelled results :
  forall acc, normalize_loop results acc <> Unmodelled.
Proof.
  induction results as [| e results IH]; intros acc; simpl; [discriminate |].
  apply rbind_modelled; [apply normalize_entry_modelled | auto].
Qed.

Lemma normalize_data_modelled data : normalize_data data <> Unmodelled.
Proof.
  unfold normalize_data.
  apply rbind_modelled; [apply iterate_modelled | intros; apply normalize_loop_modelled].
Qed.

Lemma get_method_JStr x key s :
  get_method x key = Return (JStr s) -> getitem x key = Return (JStr s).
Proof.
  destruct x; simpl; try discriminate.
  destruct (PyDict.get key (members_dict members)); [auto | discriminate].
Qed.

(** An entry that normalises has every required field. *)
Lemma normalize_entry_has_fields entry kv :
  normalize_entry entry = Return kv -> lacks_required entry = false.
Proof.
  destruct kv as [s t]. intros H. apply normalize_entry_Return in H.
  destruct H as (b & tg & rl & rv & cv & ru & Hb & Ht & _ & Hl & _
                 & Hv & _ & Hc & Hu & _).
  apply get_method_JStr in Hb, Ht.
  unfold lacks_required, has_key. now rewrite Hb, Ht, Hl, Hv, Hc, Hu.
Qed.

Lemma normalize_entry_lacking entry :
  lacks_required entry = true -> exists e, normalize_entry entry = Raise e.
Proof.
  intros Hlack. destruct (normalize_entry entry) as [kv | e |] eqn:E.
  - apply normalize_entry_has_fields in E. congruence.
  - eauto.
  - now apply normalize_entry_modelled in E.
Qed.

Lemma normalize_loop_lacking results : forall acc,
  existsb lacks_required results = true ->
  exists e, normalize_loop results acc = Raise e.
Proof.
  induction results as [| entry results IH]; intros acc Hex; simpl in *.
  - discriminate.
  - destruct (normalize_entry entry) as [kv | e |] eqn:E; simpl.
    + apply normalize_entry_has_fields in E. rewrite E in Hex. simpl in Hex.
      now apply IH.
    + eauto.
    + now apply normalize_entry_modelled in E.
Qed.

(** A batch with an entry that lacks a field makes [normalize_data] raise. *)
Lemma normalize_data_lacking data results :
  iterate data = Return results ->
  existsb lacks_required results = true ->
  exists e, normalize_data data = Raise e.
Proof.
  intros Hit Hex. unfold normalize_data. rewrite Hit. simpl.
  now apply normalize_loop_lacking.
Qed.

(** ** The fetch loop *)

Section Run.

Variable net : list event -> string -> reply.

Lemma ticker_batch_modelled resp : ticker_batch resp <> Unmodelled.
Proof.
  destruct resp as [| status [data |]]; simpl; try discriminate;
    destruct (status =? 200)%Z; try discriminate.
  apply rbind_modelled; [apply getitem_modelled |].
  intros; apply normalize_data_modelled.
Qed.

(** One turn of the loop. *)
Lemma fetch_loop_cons symbol rest result w :
  fetch_loop net (symbol :: rest) result w =
  match ticker_batch (net (log w ++ [Print ("Fetching: " ++ symbol)])
                          (ticker_url symbol)) with
  | Return batch =>
      fetch_loop net rest (PyDict.update result batch)
        (mkWorld (markets w) (log w ++ market_events symbol))
  | Raise e => (Raise e, mkWorld (markets w) (log w ++ failed_events symbol))
  | Unmodelled => (Unmodelled, mkWorld (markets w) (log w ++ failed_events symbol))
  end.
Proof.
  cbn [fetch_loop]. unfold bind at 1. unfold emit at 1. cbn [markets log].
  unfold bind at 1. unfold fetch_data, bind at 1. unfold http_get.
  cbn [markets log]. unfold market_events, failed_events.
  rewrite <- !app_assoc. cbn [app].
  destruct (net _ _) as [| status [data |]]; cbn [ticker_batch];
    try reflexivity;
    destruct (status =? 200)%Z; try reflexivity.
  unfold ret, bind at 1, lift.
  destruct (getitem data "tickers") as [tickers | e |]; cbn [rbind];
    try reflexivity.
  unfold bind at 1.
  destruct (normalize_data tickers) as [batch | e |]; try reflexivity.
  unfold bind at 1, emit. cbn [markets log].
  rewrite <- !app_assoc. reflexivity.
Qed.

(** What a run of the loop leaves behind: the registry as it was, and a
    log that grew by the events of the markets fetched, in order, followed
    by those of the market that raised, if one did. *)
Lemma fetch_loop_shape symbols : forall result w,
  markets (snd (fetch_loop net symbols result w)) = markets w /\
  exists done todo tail,
    symbols = done ++ todo /\
    log (snd (fetch_loop net symbols result w)) =
      log w ++ flat_map market_events done ++ tail /\
    match fst (fetch_loop net symbols result w) with
    | Return _ => todo = [] /\ tail = []
    | Raise _ =>
        exists symbol todo', todo = symbol :: todo' /\ tail = failed_events symbol
    | Unmodelled => False
    end.
Proof.
  induction symbols as [| symbol rest IH]; intros result w.
  - simpl. split; [reflexivity |]. exists [], [], []. simpl.
    now rewrite app_nil_r.
  - rewrite fetch_loop_cons.
    destruct (ticker_batch _) as [batch | e |] eqn:E.
    + specialize (IH (PyDict.update result batch)
                     (mkWorld (markets w) (log w ++ market_events symbol))).
      destruct IH as (Hm & done & todo & tail & Hsplit & Hlog & Hout).
      split; [exact Hm |].
      exists (symbol :: done), todo, tail. split; [now rewrite Hsplit |].
      split; [| exact Hout].
      rewrite Hlog. cbn [log flat_map]. now rewrite <- !app_assoc.
    + split; [reflexivity |].
      exists [], (symbol :: rest), (failed_events symbol).
      cbn [fst snd log flat_map app]. repeat split. eauto.
    + now apply ticker_batch_modelled in E.
Qed.

Lemma length_append (a b : string) :
  String.length (a ++ b) = String.length a + String.length b.
Proof. induction a as [| c a IH]; simpl; [reflexivity | now rewrite IH]. Qed.

(** No ticker endpoint is the market-listing endpoint. *)
Lemma ticker_url_not_listing symbol : ticker_url symbol <> listing_url.
Proof.
  unfold ticker_url, listing_url, base_url. cbn [String.append]. intros H.
  repeat match type of H with
         | String _ _ = String _ _ => injection H as H
         end.
  apply (f_equal String.length) in H. rewrite length_append in H.
  cbn [String.length] in H. lia.
Qed.

Lemma market_events_no_listing symbols :
  ~ In (Get listing_url) (flat_map market_events symbols).
Proof.
  rewrite in_flat_map. intros (s & _ & Hin). unfold market_events in Hin.
  cbn [In] in Hin.
  destruct Hin as [H | [H | [H | []]]]; try discriminate H.
  apply (ticker_url_not_listing s). congruence.
Qed.

Lemma failed_events_no_listing symbol :
  ~ In (Get listing_url) (failed_events symbol).
Proof.
  unfold failed_events. cbn [In].
  intros [H | [H | []]]; try discriminate H.
  apply (ticker_url_not_listing symbol). congruence.
Qed.

(** The loop never asks for the listing. *)
Lemma fetch_loop_no_listing symbols result w :
  exists events,
    log (snd (fetch_loop net symbols result w)) = log w ++ events /\
    ~ In (Get listing_url) events.
Proof.
  destruct (fetch_loop_shape symbols result w)
    as (_ & done & todo & tail & _ & Hlog & Hout).
  exists (flat_map market_events done ++ tail). split; [exact Hlog |].
  rewrite in_app_iff. intros [H | H].
  - now apply market_events_no_listing in H.
  - destruct (fst (fetch_loop net symbols result w)).
    + destruct Hout as [_ ->]. destruct H.
    + destruct Hout as (s & todo' & _ & ->).
      now apply failed_events_no_listing in H.
    + exact Hout.
Qed.

(** ** Loading the markets *)

Lemma grows_refl m : grows m m.
Proof. split; [exists []; now rewrite app_nil_r | auto]. Qed.

Lemma grows_trans m1 m2 m3 : grows m1 m2 -> grows m2 m3 -> grows m1 m3.
Proof.
  intros [(n1 & H1) G1] [(n2 & H2) G2]. split.
  - exists (n1 ++ n2). now rewrite H2, H1, app_assoc.
  - intros k v H. destruct (G2 _ _ H) as [-> | H']; auto.
Qed.

Lemma grows_set k m : grows m (PyDict.set k k m).
Proof.
  split.
  - rewrite PyDictFacts.keys_set. destruct (PyDict.get k m).
    + exists []. now rewrite app_nil_r.
    + now exists [k].
  - intros k' v H. destruct (String.eqb_spec k' k) as [-> | Hne].
    + rewrite PyDictFacts.get_set_same in H. injection H as <-. now left.
    + rewrite PyDictFacts.get_set_other in H by assumption. now right.
Qed.

(** An identity entry stays one when the registry grows. *)
Lemma grows_keeps m m' k :
  grows m m' -> PyDict.get k m = Some k -> PyDict.get k m' = Some k.
Proof.
  intros [(new & Hk) Hg] H.
  destruct (PyDict.get k m') as [v |] eqn:E.
  - destruct (Hg _ _ E) as [-> | H']; congruence.
  - apply PyDictFacts.get_None_keys in E. exfalso. apply E. rewrite Hk.
    apply in_or_app. left.
    destruct (in_dec string_dec k (PyDict.keys m)) as [Hin | Hnot];
      [exact Hin |].
    apply PyDictFacts.get_None_keys in Hnot. congruence.
Qed.

Lemma register_shape items : forall w,
  log (snd (register items w)) = log w /\
  grows (markets w) (markets (snd (register items w))).
Proof.
  induction items as [| item rest IH]; intros w.
  - simpl. split; [reflexivity | apply grows_refl].
  - cbn [register]. unfold bind at 1, lift.
    destruct (getitem item "id") as [symbol | e |];
      try (split; [reflexivity | apply grows_refl]).
    unfold bind at 1.
    destruct symbol; cbn [set_market raise unmodelled];
      try (split; [reflexivity | apply grows_refl]).
    unfold set_market.
    destruct (IH (mkWorld (PyDict.set s s (markets w)) (log w))) as [Hl Hg].
    split; [exact Hl |].
    eapply grows_trans; [apply grows_set | exact Hg].
Qed.

(** A listing whose items all carry a string identifier is registered in
    full. *)
Lemma register_all items : forall w,
  Forall (fun item => exists s, getitem item "id" = Return (JStr s)) items ->
  fst (register items w) = Return tt /\
  forall item s, In item items -> getitem item "id" = Return (JStr s) ->
                 PyDict.get s (markets (snd (register items w))) = Some s.
Proof.
  induction items as [| item rest IH]; intros w Hall.
  - simpl. split; [reflexivity | intros ? ? []].
  - inversion Hall as [| ? ? (s & Hs) Hrest]; subst.
    cbn [register]. unfold bind at 1, lift. rewrite Hs.
    unfold bind at 1, set_market.
    destruct (IH (mkWorld (PyDict.set s s (markets w)) (log w)) Hrest)
      as [Hout Hin].
    split; [exact Hout |].
    intros item' s' [<- | Hin'] Hs'.
    + rewrite Hs in Hs'. injection Hs' as <-.
      destruct (register_shape rest
                  (mkWorld (PyDict.set s s (markets w)) (log w)))
        as [_ Hg].
      apply (grows_keeps _ _ _ Hg). cbn [markets].
      apply PyDictFacts.get_set_same.
    + now apply Hin with (item := item').
Qed.

(** [load_markets], by the reply to its request. *)
Lemma load_markets_unfold w :
  load_markets net w =
  let w1 := mkWorld (markets w) (log w ++ [Get listing_url]) in
  match net (log w) listing_url with
  | Reply status body =>
      if (status =? 200)%Z then
        match body with
        | Some data =>
            match iterate data with
            | Return items => register items w1
            | Raise e => (Raise e, w1)
            | Unmodelled => (Unmodelled, w1)
            end
        | None => (Raise ClientError, w1)
        end
      else (Raise (FetchError status), w1)
  | NoReply => (Raise ClientError, w1)
  end.
Proof.
  unfold load_markets, bind at 1, http_get. cbv zeta.
  destruct (net (log w) listing_url) as [| status [data |]];
    try reflexivity; destruct (status =? 200)%Z; reflexivity.
Qed.

Lemma load_markets_shape w :
  log (snd (load_markets net w)) = log w ++ [Get listing_url] /\
  grows (markets w) (markets (snd (load_markets net w))).
Proof.
  rewrite load_markets_unfold. cbv zeta.
  destruct (net (log w) listing_url) as [| status [data |]];
    try (split; [reflexivity | apply grows_refl]);
    destruct (status =? 200)%Z;
    try (split; [reflexivity | apply grows_refl]).
  destruct (iterate data) as [items | e |];
    try (split; [reflexivity | apply grows_refl]).
  apply (register_shape items (mkWorld (markets w) (log w ++ [Get listing_url]))).
Qed.

(** [fetch_tickers], by the state of the registry when it is called. *)
Lemma fetch_tickers_unfold w :
  fetch_tickers net w =
  match markets w with
  | [] =>
      match load_markets net w with
      | (Return _, w') => fetch_loop net (PyDict.values (markets w')) [] w'
      | (Raise e, w') => (Raise e, w')
      | (Unmodelled, w') => (Unmodelled, w')
      end
  | _ :: _ => fetch_loop net (PyDict.values (markets w)) [] w
  end.
Proof.
  unfold fetch_tickers, bind at 1, get_markets.
  destruct (markets w) as [| kv m] eqn:E.
  - unfold bind at 1. destruct (load_markets net w) as [[u | e |] w']; reflexivity.
  - unfold bind at 1, ret. unfold bind. rewrite E. reflexivity.
Qed.

End Run.

(** ** Failure of the listing request *)

(** C4: when the listing request is answered with a status other than
    200, [load_markets] raises the fetch error that carries the reply and
    the registry is what it was before the call; an empty registry stays
    empty. *)
Theorem load_markets_failure_keeps_registry
    (net : list event -> string -> reply) (w : world)
    (status : Z) (body : option json) :
  net (log w) listing_url = Reply status body ->
  status <> 200%Z ->
  fst (load_markets net w) = Raise (FetchError status) /\
  markets (snd (load_markets net w)) = markets w /\
  (markets w = [] -> markets (snd (load_markets net w)) = []).
Proof.
  intros Hnet Hstatus. rewrite load_markets_unfold, Hnet. cbv zeta.
  apply Z.eqb_neq in Hstatus. rewrite Hstatus. simpl. auto.
Qed.

(** ** Lazy loading *)

(** C5: the events a call of [fetch_tickers] adds to the log start with the
    listing request, made once, when the registry is empty at the start,
    and the registry is then the one [load_markets] leaves; when the
    registry is not empty no listing request is made and the registry is
    unchanged. *)
Theorem fetch_tickers_loads_markets_iff_empty
    (net : list event -> string -> reply) (w : world) :
  exists events,
    log (snd (fetch_tickers net w)) = log w ++ events /\
    match markets w with
    | [] =>
        (exists later,
            events = Get listing_url :: later /\
            ~ In (Get listing_url) later) /\
        markets (snd (fetch_tickers net w)) =
        markets (snd (load_markets net w))
    | _ :: _ =>
        ~ In (Get listing_url) events /\
        markets (snd (fetch_tickers net w)) = markets w
    end.
Proof.
  rewrite fetch_tickers_unfold. destruct (markets w) as [| kv m] eqn:Em.
  - destruct (load_markets_shape net w) as [Hlog _].
    destruct (load_markets net w) as [[u | e |] w1]; cbn [snd] in *.
    + destruct (fetch_loop_no_listing net (PyDict.values (markets w1)) [] w1)
        as (later & Hl & Hno).
      destruct (fetch_loop_shape net (PyDict.values (markets w1)) [] w1)
        as [Hm _].
      exists (Get listing_url :: later). split.
      * rewrite Hl, Hlog, <- app_assoc. reflexivity.
      * split; [eauto | exact Hm].
    + exists [Get listing_url]. split; [exact Hlog |].
      split; [exists []; auto | reflexivity].
    + exists [Get listing_url]. split; [exact Hlog |].
      split; [exists []; auto | reflexivity].
  - rewrite <- Em.
    destruct (fetch_loop_no_listing net (PyDict.values (markets w)) [] w)
      as (events & Hl & Hno).
    destruct (fetch_loop_shape net (PyDict.values (markets w)) [] w)
      as [Hm _].
    exists events. auto.
Qed.

(** ** Pacing *)


(** ** The registry *)

Lemma grows_identity m m' :
  grows m m' -> identity_registry m -> identity_registry m'.
Proof.
  intros [_ Hg] Hid k v H. destruct (Hg _ _ H) as [-> | H']; auto.
Qed.

Lemma fetch_tickers_grows (net : list event -> string -> reply) (w : world) :
  grows (markets w) (markets (snd (fetch_tickers net w))).
Proof.
  rewrite fetch_tickers_unfold. destruct (markets w) as [| kv m] eqn:Em.
  - destruct (load_markets_shape net w) as [_ Hg]. rewrite Em in Hg.
    destruct (load_markets net w) as [[u | e |] w1]; cbn [snd] in *; auto.
    destruct (fetch_loop_shape net (PyDict.values (markets w1)) [] w1)
      as [-> _].
    exact Hg.
  - rewrite <- Em.
    destruct (fetch_loop_shape net (PyDict.values (markets w)) [] w)
      as [-> _].
    apply grows_refl.
Qed.

(** C10: the registry is empty at construction; [load_markets] and
    [fetch_tickers], the only operations on it, keep every key in its
    place, add new keys after them, and every entry they leave is an old
    entry or maps a key to itself, whether they return or raise; so a
    registry of identity entries stays one, and a second successful
    [load_markets] keeps the entries of the first. *)
Theorem markets_registry_only_grows
    (net : list event -> string -> reply) (w : world) :
  markets init = [] /\
  ((exists new,
       PyDict.keys (markets (snd (load_markets net w))) =
       PyDict.keys (markets w) ++ new) /\
   (forall k v,
       PyDict.get k (markets (snd (load_markets net w))) = Some v ->
       v = k \/ PyDict.get k (markets w) = Some v)) /\
  ((exists new,
       PyDict.keys (markets (snd (fetch_tickers net w))) =
       PyDict.keys (markets w) ++ new) /\
   (forall k v,
       PyDict.get k (markets (snd (fetch_tickers net w))) = Some v ->
       v = k \/ PyDict.get k (markets w) = Some v)) /\
  (identity_registry (markets w) ->
   identity_registry (markets (snd (load_markets net w))) /\
   identity_registry (markets (snd (fetch_tickers net w))) /\
   forall k, PyDict.get k (markets w) = Some k ->
             PyDict.get k (markets (snd (load_markets net w))) = Some k /\
             PyDict.get k (markets (snd (fetch_tickers net w))) = Some k) /\
  (forall data items,
      net (log w) listing_url = Reply 200 (Some data) ->
      iterate data = Return items ->
      Forall (fun item => exists s, getitem item "id" = Return (JStr s))
             items ->
      fst (load_markets net w) = Return tt /\
      forall item s,
        In item items -> getitem item "id" = Return (JStr s) ->
        PyDict.get s (markets (snd (load_markets net w))) = Some s).
Proof.
  pose proof (load_markets_shape net w) as [_ Hl].
  pose proof (fetch_tickers_grows net w) as Hf.
  split; [reflexivity |]. split; [exact Hl |]. split; [exact Hf |].
  split.
  - intros Hid. split; [eapply grows_identity; eassumption |].
    split; [eapply grows_identity; eassumption |].
    intros k Hk. split; eapply grows_keeps; eassumption.
  - intros data items Hnet Hit Hall.
    rewrite load_markets_unfold, Hnet. cbv zeta.
    change (200 =? 200)%Z with true. cbv iota. rewrite Hit.
    now apply register_all.
Qed.

(** ** The registry of a fetch *)

(** When the lazy load, if there is one, returns, [fetch_tickers] is its
    loop over the registry of the fetch. *)
Lemma fetch_tickers_over_registry
    (net : list event -> string -> reply) (w : world) :
  (markets w = [] -> fst (load_markets net w) = Return tt) ->
  fetch_tickers net w =
  fetch_loop net (PyDict.values (fetch_registry net w)) [] (fetch_start net w).
Proof.
  intros Hload. rewrite fetch_tickers_unfold.
  unfold fetch_registry, fetch_start.
  destruct (markets w) as [| kv ms]; [| reflexivity].
  specialize (Hload eq_refl).
  destruct (load_markets net w) as [[u | e |] w1]; cbn [fst snd] in *;
    try discriminate.
  reflexivity.
Qed.

(** Whatever the lazy load gives, a fetch whose loop raises on the
    registry of the fetch does not return. *)
Lemma fetch_tickers_no_return
    (net : list event -> string -> reply) (w : world) :
  (forall result w1,
      exists e,
        fst (fetch_loop net (PyDict.values (fetch_registry net w)) result w1)
        = Raise e) ->
  forall result, fst (fetch_tickers net w) <> Return result.
Proof.
  intros Hloop result. rewrite fetch_tickers_unfold.
  unfold fetch_registry in Hloop.
  destruct (markets w) as [| kv ms] eqn:Em.
  - destruct (load_markets net w) as [[u | e |] w1]; cbn [fst snd] in *;
      try discriminate.
    destruct (Hloop [] w1) as (e & He). congruence.
  - rewrite <- Em. destruct (Hloop [] w) as (e & He). congruence.
Qed.

(** ** Merging the batches *)

Section Stateless.

Variable net : list event -> string -> reply.

(** The batch each market gives, whatever happened before its request. *)
Variable batch_of : string -> PyDict.t TickerInfo.

Lemma fetch_loop_merges symbols :
  (forall m h, In m symbols ->
               ticker_batch (net h (ticker_url m)) = Return (batch_of m)) ->
  forall result w,
    fst (fetch_loop net symbols result w) =
    Return (fold_left (fun acc m => PyDict.update acc (batch_of m))
                      symbols result).
Proof.
  induction symbols as [| m rest IH]; intros Hnet result w.
  - reflexivity.
  - rewrite fetch_loop_cons, Hnet by now left.
    cbn [fold_left]. apply IH. intros m' h Hin. apply Hnet. now right.
Qed.

Lemma get_fold_update_skip (s : Symbol) symbols :
  (forall m, In m symbols -> PyDict.get s (batch_of m) = None) ->
  forall result,
    PyDict.get s (fold_left (fun acc m => PyDict.update acc (batch_of m))
                            symbols result) =
    PyDict.get s result.
Proof.
  induction symbols as [| m rest IH]; intros Hskip result; [reflexivity |].
  cbn [fold_left]. rewrite IH by (intros; apply Hskip; now right).
  rewrite PyDictFacts.get_update. unfold PyDict.last_binding.
  assert (H : PyDict.get s (rev (batch_of m)) = None).
  { apply PyDictFacts.get_None_keys. unfold PyDict.keys.
    rewrite map_rev, <- in_rev. apply PyDictFacts.get_None_keys, Hskip. now left. }
  now rewrite H.
Qed.

End Stateless.

Lemma ticker_batch_NoDup resp d :
  ticker_batch resp = Return d -> NoDup (PyDict.keys d).
Proof.
  destruct resp as [| status [data |]]; simpl; try discriminate;
    destruct (status =? 200)%Z; try discriminate.
  intros H. rbind_inv H. now apply normalize_data_NoDup in H.
Qed.

(** C3: for a call of [fetch_tickers] on any instance, its registry filled
    before or loaded by the call itself: when every market of the registry
    of the fetch answers with a batch that normalises, and the batches of
    two markets both hold a symbol, the mapping [fetch_tickers] returns
    holds for that symbol the record of the batch fetched later (no market
    after it giving the symbol again). *)
Theorem fetch_tickers_last_batch_wins
    (net : list event -> string -> reply) (w : world)
    (batch_of : string -> PyDict.t TickerInfo)
    (before : list string) (m1 : string) (between : list string)
    (m2 : string) (after : list string)
    (s : Symbol) (t1 t2 : TickerInfo) :
  (markets w = [] -> fst (load_markets net w) = Return tt) ->
  PyDict.values (fetch_registry net w)
  = before ++ m1 :: between ++ m2 :: after ->
  (forall m h, In m (PyDict.values (fetch_registry net w)) ->
               ticker_batch (net h (ticker_url m)) = Return (batch_of m)) ->
  PyDict.get s (batch_of m1) = Some t1 ->
  PyDict.get s (batch_of m2) = Some t2 ->
  (forall m, In m after -> PyDict.get s (batch_of m) = None) ->
  exists result,
    fst (fetch_tickers net w) = Return result /\
    PyDict.get s result = Some t2.
Proof.
  intros Hload Hvalues Hnet _ H2 Hafter.
  rewrite (fetch_tickers_over_registry net w Hload).
  rewrite (fetch_loop_merges net batch_of _ Hnet).
  eexists. split; [reflexivity |].
  rewrite Hvalues, fold_left_app. cbn [fold_left].
  rewrite fold_left_app. cbn [fold_left].
  rewrite get_fold_update_skip by assumption.
  rewrite PyDictFacts.get_update, PyDictFacts.last_binding_NoDup, H2;
    [reflexivity |].
  apply (ticker_batch_NoDup (net [] (ticker_url m2))).
  apply Hnet. rewrite Hvalues.
  apply in_or_app. right. right. apply in_or_app. right. now left.
Qed.

(** ** Failure of a normalisation *)

Lemma fetch_loop_raises
    (net : list event -> string -> reply) (m : string) (symbols : list string) :
  In m symbols ->
  (forall h, exists e, ticker_batch (net h (ticker_url m)) = Raise e) ->
  forall result w, exists e, fst (fetch_loop net symbols result w) = Raise e.
Proof.
  intros Hin Hbad.
  induction symbols as [| m' rest IH]; intros result w; [destruct Hin |].
  rewrite fetch_loop_cons.
  destruct (ticker_batch _) as [batch | e |] eqn:E.
  - destruct Hin as [-> | Hin].
    + destruct (Hbad (log w ++ [Print ("Fetching: " ++ m)])) as (e & He).
      congruence.
    + now apply IH.
  - now exists e.
  - now apply ticker_batch_modelled in E.
Qed.

(** The exception of the first market that fails is the one the fetch
    raises. *)
Lemma fetch_loop_raises_exactly
    (net : list event -> string -> reply)
    (batch_of : string -> PyDict.t TickerInfo) (m : string) (e : exn)
    (after : list string) (before : list string) :
  (forall m' h, In m' before ->
                ticker_batch (net h (ticker_url m')) = Return (batch_of m')) ->
  (forall h, ticker_batch (net h (ticker_url m)) = Raise e) ->
  forall result w,
    fst (fetch_loop net (before ++ m :: after) result w) = Raise e.
Proof.
  intros Hok Hbad.
  induction before as [| m' before IH]; intros result w; cbn [app];
    rewrite fetch_loop_cons.
  - now rewrite Hbad.
  - rewrite Hok by now left.
    apply IH. intros m0 h Hin. apply Hok. now right.
Qed.

(** C6: for a call of [fetch_tickers] on any instance, its registry filled
    before or loaded by the call itself: when the batch a market of the
    registry of the fetch answers with has an entry that lacks a required
    field, [normalize_data] raises on that batch and [fetch_tickers] returns
    no mapping. When the lazy load, if there is one, returns, [fetch_tickers]
    raises; when moreover the markets before that one all gave their
    batches, the exception of [normalize_data] is the one [fetch_tickers]
    raises, and those batches are not returned. *)
Theorem fetch_tickers_aborts_on_missing_field
    (net : list event -> string -> reply) (w : world)
    (m : string) (body tickers : json) (entries : list json) :
  In m (PyDict.values (fetch_registry net w)) ->
  (forall h, net h (ticker_url m) = Reply 200 (Some body)) ->
  getitem body "tickers" = Return tickers ->
  iterate tickers = Return entries ->
  existsb lacks_required entries = true ->
  exists e,
    normalize_data tickers = Raise e /\
    (forall result, fst (fetch_tickers net w) <> Return result) /\
    ((markets w = [] -> fst (load_markets net w) = Return tt) ->
     (exists e', fst (fetch_tickers net w) = Raise e') /\
     (forall before after batch_of,
         PyDict.values (fetch_registry net w) = before ++ m :: after ->
         (forall m' h, In m' before ->
                       ticker_batch (net h (ticker_url m'))
                       = Return (batch_of m')) ->
         fst (fetch_tickers net w) = Raise e)).
Proof.
  intros Hin Hnet Hbody Hit Hlack.
  destruct (normalize_data_lacking _ _ Hit Hlack) as (e & He).
  assert (Hm : forall h, ticker_batch (net h (ticker_url m)) = Raise e).
  { intros h. rewrite Hnet. cbn [ticker_batch].
    change (200 =? 200)%Z with true. cbv iota. rewrite Hbody. exact He. }
  assert (Hloop : forall result w1,
             exists e',
               fst (fetch_loop net (PyDict.values (fetch_registry net w))
                               result w1) = Raise e').
  { apply fetch_loop_raises with (m := m); [exact Hin |].
    intros h. exists e. apply Hm. }
  exists e. split; [exact He |].
  split; [now apply fetch_tickers_no_return |].
  intros Hload. rewrite (fetch_tickers_over_registry net w Hload). split.
  - apply Hloop.
  - intros before after batch_of Hvalues Hok. rewrite Hvalues.
    now apply fetch_loop_raises_exactly with (batch_of := batch_of).
Qed.

(** ** End to end *)

(** C1: with a listing that holds the one market "bitcoin" and the quoted
    ticker reply for it, [fetch_tickers] on an instance whose registry is
    empty returns the mapping with the one key "BTC/USDT", whose record
    holds the floats 57000, 11328 and 3456789. *)
Theorem fetch_tickers_end_to_end
    (net : list event -> string -> reply) (w : world) :
  markets w = [] ->
  (forall h, net h listing_url = Reply 200 (Some listing_response)) ->
  (forall h, net h (ticker_url "bitcoin") = Reply 200 (Some ticker_response)) ->
  fst (fetch_tickers net w) = Return [("BTC/USDT", btc_usdt_ticker)] /\
  PyFloat.integer_value (last btc_usdt_ticker) = Some 57000%Z /\
  PyFloat.integer_value (baseVolume btc_usdt_ticker) = Some 11328%Z /\
  PyFloat.integer_value (quoteVolume btc_usdt_ticker) = Some 3456789%Z.
Proof.
  intros Hempty Hlisting Hticker.
  split; [| repeat split; vm_compute; reflexivity].
  rewrite fetch_tickers_unfold, Hempty, load_markets_unfold, Hlisting.
  cbv zeta. change (200 =? 200)%Z with true. cbv iota.
  cbn [listing_response iterate register]. unfold bind at 1, lift.
  rewrite Hempty.
  change (getitem (JDict [("id", JStr "bitcoin")]) "id")
    with (Return (A := json) (JStr "bitcoin")).
  unfold bind at 1, set_market. cbn [register ret markets log snd fst].
  cbn [PyDict.set PyDict.values map snd].
  rewrite fetch_loop_cons, Hticker.
  replace (ticker_batch (Reply 200 (Some ticker_response)))
    with (Return [("BTC/USDT", btc_usdt_ticker)]) by (vm_compute; reflexivity).
  reflexivity.
Qed.

(** * Concrete runs *)

Lemma fetch_tickers_end_to_end_witness :
  markets init = [] /\
  (forall h, bitcoin_net h listing_url = Reply 200 (Some listing_response)) /\
  (forall h, bitcoin_net h (ticker_url "bitcoin")
             = Reply 200 (Some ticker_response)) /\
  fst (fetch_tickers bitcoin_net init) = Return [("BTC/USDT", btc_usdt_ticker)].
Proof.
  split; [reflexivity |]. split; [intros h; reflexivity |].
  split; [intros h; reflexivity |].
  apply (fetch_tickers_end_to_end bitcoin_net init).
  - reflexivity.
  - intros h. reflexivity.
  - intros h. reflexivity.
Defined.

Lemma load_markets_failure_keeps_registry_witness :
  not_found_net (log init) listing_url = Reply 404 None /\
  404%Z <> 200%Z /\
  fst (load_markets not_found_net init) = Raise (FetchError 404) /\
  markets (snd (load_markets not_found_net init)) = [].
Proof.
  split; [reflexivity |]. split; [lia |].
  destruct (load_markets_failure_keeps_registry not_found_net init 404 None)
    as (Hraise & _ & Hempty).
  - reflexivity.
  - lia.
  - split; [exact Hraise | apply Hempty; reflexivity].
Defined.

Lemma normalize_data_later_entry_wins_witness :
  normalize_entry (btc_entry "57000") = Return ("BTC/USDT", btc_usdt_ticker) /\
  normalize_entry (btc_entry "58000") = Return ("BTC/USDT", btc_ticker_58000) /\
  normalize_data (JList [btc_entry "57000"; btc_entry "58000"])
  = Return [("BTC/USDT", btc_ticker_58000)] /\
  PyDict.get "BTC/USDT" [("BTC/USDT", btc_ticker_58000)]
  = Some btc_ticker_58000.
Proof.
  split; [vm_compute; reflexivity |]. split; [vm_compute; reflexivity |].
  split; [vm_compute; reflexivity |].
  apply (normalize_data_later_entry_wins
           [] (btc_entry "57000") [] (btc_entry "58000") []
           "BTC/USDT" btc_usdt_ticker btc_ticker_58000).
  - vm_compute; reflexivity.
  - vm_compute; reflexivity.
  - intros e kv [].
  - vm_compute; reflexivity.
Defined.

Lemma normalize_data_volumes_are_source_values_witness :
  normalize_data negative_volume_payload
  = Return [("BTC/USDT", negative_volume_ticker)] /\
  exists results entry raw_volume converted raw_usd,
    iterate negative_volume_payload = Return results /\ In entry results /\
    getitem entry "volume" = Return raw_volume /\
    py_float raw_volume = Return (baseVolume negative_volume_ticker) /\
    getitem entry "converted_volume" = Return converted /\
    getitem converted "usd" = Return raw_usd /\
    py_float raw_usd = Return (quoteVolume negative_volume_ticker).
Proof.
  split; [vm_compute; reflexivity |].
  apply (normalize_data_volumes_are_source_values
           negative_volume_payload
           [("BTC/USDT", negative_volume_ticker)] "BTC/USDT").
  - vm_compute; reflexivity.
  - vm_compute; reflexivity.
Defined.

Lemma fetch_tickers_last_batch_wins_witness :
  markets init = [] /\
  PyDict.values (fetch_registry (with_listing two_markets_net) init)
  = ["bitcoin"; "wrapped-bitcoin"] /\
  exists result,
    fst (fetch_tickers (with_listing two_markets_net) init) = Return result /\
    PyDict.get "BTC/USDT" result = Some btc_ticker_58000.
Proof.
  split; [reflexivity |]. split; [vm_compute; reflexivity |].
  apply (fetch_tickers_last_batch_wins
           (with_listing two_markets_net) init two_markets_batch
           [] "bitcoin" [] "wrapped-bitcoin" []
           "BTC/USDT" btc_usdt_ticker btc_ticker_58000).
  - intros _. vm_compute; reflexivity.
  - vm_compute; reflexivity.
  - intros m h Hin.
    assert (Hv : PyDict.values
                   (fetch_registry (with_listing two_markets_net) init)
                 = ["bitcoin"; "wrapped-bitcoin"]) by (vm_compute; reflexivity).
    rewrite Hv in Hin.
    destruct Hin as [<- | [<- | []]]; vm_compute; reflexivity.
  - reflexivity.
  - reflexivity.
  - intros m [].
Defined.

Lemma fetch_tickers_aborts_on_missing_field_witness :
  markets init = [] /\
  In "wrapped-bitcoin"
     (PyDict.values (fetch_registry (with_listing broken_net) init)) /\
  existsb lacks_required [btc_entry "58000"; entry_without_last] = true /\
  exists e,
    normalize_data (JList [btc_entry "58000"; entry_without_last]) = Raise e /\
    (forall result,
        fst (fetch_tickers (with_listing broken_net) init) <> Return result) /\
    ((markets init = [] ->
      fst (load_markets (with_listing broken_net) init) = Return tt) ->
     (exists e', fst (fetch_tickers (with_listing broken_net) init) = Raise e') /\
     (forall before after batch_of,
         PyDict.values (fetch_registry (with_listing broken_net) init)
         = before ++ "wrapped-bitcoin" :: after ->
         (forall m' h, In m' before ->
                       ticker_batch (with_listing broken_net h (ticker_url m'))
                       = Return (batch_of m')) ->
         fst (fetch_tickers (with_listing broken_net) init) = Raise e)).
Proof.
  split; [reflexivity |].
  split; [vm_compute; right; left; reflexivity |].
  split; [vm_compute; reflexivity |].
  apply (fetch_tickers_aborts_on_missing_field
           (with_listing broken_net) init "wrapped-bitcoin"
           (tickers_body [btc_entry "58000"; entry_without_last])
           (JList [btc_entry "58000"; entry_without_last])
           [btc_entry "58000"; entry_without_last]).
  - vm_compute. right; left; reflexivity.
  - intros h. reflexivity.
  - reflexivity.
  - reflexivity.
  - vm_compute; reflexivity.
Defined.

(** The lazily loaded run on the broken batch raises what
    [normalize_data] raised. *)
Example fetch_tickers_broken_batch_lazy :
  fst (load_markets (with_listing broken_net) init) = Return tt /\
  fst (fetch_tickers (with_listing broken_net) init) = Raise (KeyError "last").
Proof. split; vm_compute; reflexivity. Qed.

(** What the run on the broken batch raises. *)
Example fetch_tickers_broken_batch :
  fst (fetch_tickers broken_net two_markets) = Raise (KeyError "last").
Proof. vm_compute. reflexivity. Qed.

(** * Further properties *)

(** ** Symbols *)

Lemma convert_nil : _convert_symbol_to_ccxt "" = "".
Proof. reflexivity. Qed.

Lemma convert_cons (c : ascii) (s : string) :
  _convert_symbol_to_ccxt (String c s) =
  String (colon_to_slash c) (_convert_symbol_to_ccxt s).
Proof. apply replace_colon_cons. Qed.

Lemma convert_append (a b : string) :
  _convert_symbol_to_ccxt (a ++ b) =
  (_convert_symbol_to_ccxt a ++ _convert_symbol_to_ccxt b)%string.
Proof.
  induction a as [| c a IH]; [reflexivity |].
  cbn [String.append]. rewrite !convert_cons, IH. reflexivity.
Qed.

Lemma colon_to_slash_not_colon (c : ascii) :
  Ascii.eqb (colon_to_slash c) ":"%char = false.
Proof.
  unfold colon_to_slash. destruct (Ascii.eqb c ":"%char) eqn:E;
    [reflexivity | exact E].
Qed.

Lemma convert_without_colon (s : string) :
  has_char ":" s = false -> _convert_symbol_to_ccxt s = s.
Proof.
  induction s as [| c s IH]; intros H; [reflexivity |].
  cbn [has_char] in H. apply orb_false_iff in H. destruct H as [Hc Hs].
  rewrite convert_cons, IH by assumption.
  unfold colon_to_slash. now rewrite Hc.
Qed.

Lemma convert_has_no_colon (s : string) :
  has_char ":" (_convert_symbol_to_ccxt s) = false.
Proof.
  induction s as [| c s IH]; [reflexivity |].
  rewrite convert_cons. cbn [has_char].
  now rewrite colon_to_slash_not_colon, IH.
Qed.

(** X1: a converted symbol holds no ':'; converting it again changes
    nothing, and a string without ':' is returned as it is. *)
Theorem convert_symbol_idempotent (s : string) :
  has_char ":" (_convert_symbol_to_ccxt s) = false /\
  _convert_symbol_to_ccxt (_convert_symbol_to_ccxt s)
  = _convert_symbol_to_ccxt s /\
  (has_char ":" s = false -> _convert_symbol_to_ccxt s = s).
Proof.
  split; [apply convert_has_no_colon |].
  split; [apply convert_without_colon, convert_has_no_colon |].
  apply convert_without_colon.
Qed.

(** X2: the key [normalize_data] gives an entry is the converted base, a
    '/', and the converted target: the conversion goes through the
    concatenation, so a ':' inside an asset code becomes a '/' as well. *)
Theorem normalize_entry_symbol
    (entry : json) (s : Symbol) (t : TickerInfo) :
  normalize_entry entry = Return (s, t) ->
  exists base target,
    get_method entry "base" = Return (JStr base) /\
    get_method entry "target" = Return (JStr target) /\
    s = ((_convert_symbol_to_ccxt base ++ "/")
         ++ _convert_symbol_to_ccxt target)%string.
Proof.
  intros H. apply normalize_entry_Return in H.
  destruct H as (b & tg & _ & _ & _ & _ & Hb & Ht & -> & _).
  exists b, tg. split; [exact Hb |]. split; [exact Ht |].
  now rewrite !convert_append.
Qed.

Lemma split_at_slash (a a' b b' : string) :
  has_char "/" a = false -> has_char "/" a' = false ->
  ((a ++ "/") ++ b)%string = ((a' ++ "/") ++ b')%string ->
  a = a' /\ b = b'.
Proof.
  revert a'. induction a as [| c a IH]; intros [| c' a'] Ha Ha' H;
    cbn [String.append has_char] in *.
  - injection H as ->. auto.
  - injection H as <- _. apply orb_false_iff in Ha'.
    destruct Ha' as [Hc _]. discriminate Hc.
  - injection H as -> _. apply orb_false_iff in Ha.
    destruct Ha as [Hc _]. discriminate Hc.
  - injection H as -> H.
    apply orb_false_iff in Ha. apply orb_false_iff in Ha'.
    destruct (IH a' (proj2 Ha) (proj2 Ha') H) as [-> ->]. auto.
Qed.

(** X3: for asset codes without ':' (and bases without '/'), the symbol is
    base, '/', target, and two pairs with the same symbol are the same
    pair; without that, different pairs can share a symbol. *)
Theorem symbol_determines_pair (b1 g1 b2 g2 : string) :
  has_char ":" b1 = false -> has_char "/" b1 = false ->
  has_char ":" g1 = false ->
  has_char ":" b2 = false -> has_char "/" b2 = false ->
  has_char ":" g2 = false ->
  _convert_symbol_to_ccxt ((b1 ++ ":") ++ g1) = ((b1 ++ "/") ++ g1)%string /\
  (_convert_symbol_to_ccxt ((b1 ++ ":") ++ g1)
   = _convert_symbol_to_ccxt ((b2 ++ ":") ++ g2) ->
   b1 = b2 /\ g1 = g2) /\
  _convert_symbol_to_ccxt (("A:B" ++ ":") ++ "C")
  = _convert_symbol_to_ccxt (("A" ++ ":") ++ "B:C").
Proof.
  intros Hb1 Hs1 Hg1 Hb2 Hs2 Hg2.
  assert (Hsym : forall b g, has_char ":" b = false -> has_char ":" g = false ->
            _convert_symbol_to_ccxt ((b ++ ":") ++ g) = ((b ++ "/") ++ g)%string).
  { intros b g Hb Hg. rewrite !convert_append.
    now rewrite (convert_without_colon b), (convert_without_colon g). }
  split; [now apply Hsym |]. split; [| reflexivity].
  rewrite !Hsym by assumption. now apply split_at_slash.
Qed.

(** ** More on normalisation *)

(** X4: [normalize_data] returns exactly when the payload can be iterated
    and every item normalises; the mapping is then the dictionary the
    pairs of the items build, in order. In every other case it raises. *)
Theorem normalize_data_returns_iff (data : json) (d : PyDict.t TickerInfo) :
  (normalize_data data = Return d <->
   exists results kvs,
     iterate data = Return results /\
     Forall2 normalizes_to results kvs /\
     d = PyDict.of_pairs kvs) /\
  ((forall d', normalize_data data <> Return d') ->
   exists e, normalize_data data = Raise e).
Proof.
  split; [split |].
  - unfold normalize_data. intros H. rbind_inv H.
    apply normalize_loop_Return in H. destruct H as (kvs & Hall & ->).
    exists x, kvs. auto.
  - intros (results & kvs & Hit & Hall & ->). unfold normalize_data.
    rewrite Hit. cbn [rbind]. now apply normalize_loop_complete.
  - intros Hnot. destruct (normalize_data data) as [d' | e |] eqn:E.
    + now destruct (Hnot d').
    + now exists e.
    + now apply normalize_data_modelled in E.
Qed.

Lemma Forall2_In_left {A B} (R : A -> B -> Prop) l k a :
  Forall2 R l k -> In a l -> exists b, In b k /\ R a b.
Proof.
  induction 1 as [| a' b l k Hab _ IH]; intros Hin; [destruct Hin |].
  destruct Hin as [<- | Hin].
  - exists b. split; [now left | assumption].
  - destruct (IH Hin) as (b' & Hb' & HR). exists b'. split; [now right | assumption].
Qed.

Lemma keys_update_In {V} (k : string) (l : list (string * V)) :
  forall d,
    In k (PyDict.keys (PyDict.update d l)) <->
    In k (PyDict.keys d) \/ In k (map fst l).
Proof.
  unfold PyDict.update.
  induction l as [| [k' v'] l IH]; intros d; cbn [fold_left map In fst snd].
  - tauto.
  - rewrite IH, PyDictFacts.keys_set.
    destruct (PyDict.get k' d) eqn:E.
    + assert (Hin : In k' (PyDict.keys d)).
      { destruct (in_dec string_dec k' (PyDict.keys d)) as [H | H]; [exact H |].
        apply PyDictFacts.get_None_keys in H. congruence. }
      split; [tauto |]. intros [H | [<- | H]]; auto.
    + rewrite in_app_iff. cbn [In]. tauto.
Qed.

(** X5: a symbol is a key of the mapping [normalize_data] returns exactly
    when an item of the payload normalises to it; the mapping has no more
    keys than the payload has items. *)
Theorem normalize_data_keys
    (data : json) (results : list json) (d : PyDict.t TickerInfo) :
  iterate data = Return results ->
  normalize_data data = Return d ->
  (forall s,
      In s (PyDict.keys d) <->
      exists entry t, In entry results /\ normalize_entry entry = Return (s, t)) /\
  (length (PyDict.keys d) <= length results)%nat.
Proof.
  intros Hit H. unfold normalize_data in H. rewrite Hit in H. cbn [rbind] in H.
  assert (Hnd : NoDup (PyDict.keys d)).
  { eapply normalize_loop_NoDup; [| exact H]. constructor. }
  apply normalize_loop_Return in H. destruct H as (kvs & Hall & ->).
  assert (Hkeys : forall s, In s (PyDict.keys (PyDict.update [] kvs)) <->
                            In s (map fst kvs)).
  { intros s. rewrite keys_update_In. cbn [PyDict.keys map In]. tauto. }
  split.
  - intros s. rewrite Hkeys, in_map_iff. split.
    + intros ([s' t] & <- & Hin).
      destruct (Forall2_In_right _ _ _ _ Hall Hin) as (e & He & Hn).
      exists e, t. auto.
    + intros (e & t & Hin & He).
      destruct (Forall2_In_left _ _ _ _ Hall Hin) as (kv & Hin' & Hkv).
      exists kv. split; [| exact Hin'].
      unfold normalizes_to in Hkv. rewrite He in Hkv. now injection Hkv as <-.
  - rewrite (Forall2_length Hall), <- (length_map fst kvs).
    apply NoDup_incl_length; [exact Hnd |].
    intros s Hs. now apply Hkeys.
Qed.

(** X6: every record of a normalisation result sits under the converted
    base ':' target of an item of the payload, and its [last] is
    [float(item["last"])] of that item. *)
Theorem normalize_data_last_is_source_value
    (data : json) (d : PyDict.t TickerInfo) (s : Symbol) (t : TickerInfo) :
  normalize_data data = Return d ->
  PyDict.get s d = Some t ->
  exists results entry base target raw_last,
    iterate data = Return results /\ In entry results /\
    get_method entry "base" = Return (JStr base) /\
    get_method entry "target" = Return (JStr target) /\
    s = _convert_symbol_to_ccxt ((base ++ ":") ++ target) /\
    getitem entry "last" = Return raw_last /\
    py_float raw_last = Return (last t).
Proof.
  intros H Hget.
  destruct (normalize_data_In _ _ _ _ H Hget)
    as (results & entry & Hit & Hin & He).
  apply normalize_entry_Return in He.
  destruct He as (b & tg & rl & _ & _ & _ & Hb & Ht & Hs & Hl & Hfl & _).
  exists results, entry, b, tg, rl. tauto.
Qed.

Lemma normalize_entry_non_dict (entry : json) :
  (forall members, entry <> JDict members) ->
  normalize_entry entry = Raise AttributeError.
Proof.
  intros H. destruct entry; try reflexivity. now destruct (H members).
Qed.

Lemma of_pairs_keys_nonempty {V} (p : string * V) (l : list (string * V)) :
  PyDict.keys (PyDict.of_pairs (p :: l)) <> [].
Proof.
  intros H.
  assert (Hin : In (fst p) (PyDict.keys (PyDict.of_pairs (p :: l)))).
  { unfold PyDict.of_pairs. apply keys_update_In. right. now left. }
  rewrite H in Hin. destruct Hin.
Qed.

(** X7: a payload that is not a list. An object or a string that is not
    empty makes [normalize_data] raise [AttributeError] (its keys, or its
    characters, are strings and have no [get]); an empty list, object or
    string gives the empty mapping; [None], a boolean or a number cannot be
    iterated and raises [TypeError]. *)
Theorem normalize_data_not_a_list :
  (forall members,
      members <> [] -> normalize_data (JDict members) = Raise AttributeError) /\
  (forall s, s <> "" -> normalize_data (JStr s) = Raise AttributeError) /\
  (forall data, iterate data = Return [] -> normalize_data data = Return []) /\
  (forall data,
      match data with
      | JNull | JBool _ | JInt _ | JFloat _ =>
          normalize_data data = Raise TypeError
      | _ => True
      end).
Proof.
  split; [| split; [| split]].
  - intros [| p l] H; [now destruct H |].
    unfold normalize_data. cbn [iterate rbind].
    pose proof (of_pairs_keys_nonempty p l) as Hk. unfold members_dict.
    destruct (PyDict.keys (PyDict.of_pairs (p :: l))); [now destruct Hk |].
    reflexivity.
  - intros [| c s] H; [now destruct H | reflexivity].
  - intros data H. unfold normalize_data. now rewrite H.
  - intros []; try exact I; reflexivity.
Qed.

(** X8: which exception an entry raises. An entry that is not an object
    raises [AttributeError]; an object whose base, or then whose target, is
    absent or not a string raises [TypeError], whatever its other fields;
    with both present the steps are taken in the order ["last"],
    [float] of it, ["volume"], [float] of it, ["converted_volume"], its
    ["usd"], [float] of it, and the first step that raises decides the
    exception, whatever the later fields hold; when no step raises the
    entry gives its pair. An entry whose volume is not a number and that
    has no ["converted_volume"] so raises [ValueError], not [KeyError]. *)
Theorem normalize_entry_first_failure (entry : json) :
  ((forall members, entry <> JDict members) ->
   normalize_entry entry = Raise AttributeError) /\
  (forall x,
      get_method entry "base" = Return x ->
      (forall base, x <> JStr base) ->
      normalize_entry entry = Raise TypeError) /\
  (forall base x,
      get_method entry "base" = Return (JStr base) ->
      get_method entry "target" = Return x ->
      (forall target, x <> JStr target) ->
      normalize_entry entry = Raise TypeError) /\
  (forall base target,
      get_method entry "base" = Return (JStr base) ->
      get_method entry "target" = Return (JStr target) ->
      (forall e,
          getitem entry "last" = Raise e -> normalize_entry entry = Raise e) /\
      (forall raw_last,
          getitem entry "last" = Return raw_last ->
          (forall e,
              py_float raw_last = Raise e -> normalize_entry entry = Raise e) /\
          (forall f,
              py_float raw_last = Return f ->
              (forall e,
                  getitem entry "volume" = Raise e ->
                  normalize_entry entry = Raise e) /\
              (forall raw_volume,
                  getitem entry "volume" = Return raw_volume ->
                  (forall e,
                      py_float raw_volume = Raise e ->
                      normalize_entry entry = Raise e) /\
                  (forall g,
                      py_float raw_volume = Return g ->
                      (forall e,
                          getitem entry "converted_volume" = Raise e ->
                          normalize_entry entry = Raise e) /\
                      (forall converted,
                          getitem entry "converted_volume" = Return converted ->
                          (forall e,
                              getitem converted "usd" = Raise e ->
                              normalize_entry entry = Raise e) /\
                          (forall raw_usd,
                              getitem converted "usd" = Return raw_usd ->
                              (forall e,
                                  py_float raw_usd = Raise e ->
                                  normalize_entry entry = Raise e) /\
                              (forall q,
                                  py_float raw_usd = Return q ->
                                  normalize_entry entry =
                                  Return
                                    (_convert_symbol_to_ccxt
                                       ((base ++ ":") ++ target),
                                     mkTickerInfo f g q))))))))) /\
  normalize_entry entry_bad_volume = Raise ValueError.
Proof.
  split; [apply normalize_entry_non_dict |].
  split; [| split; [| split; [| vm_compute; reflexivity]]].
  - intros x Hb Hx. unfold normalize_entry. rewrite Hb. cbn [rbind].
    destruct x; try reflexivity. now destruct (Hx s).
  - intros base x Hb Ht Hx. unfold normalize_entry.
    rewrite Hb. cbn [rbind add]. rewrite Ht. cbn [rbind].
    destruct x; try reflexivity. now destruct (Hx s).
  - intros base target Hb Ht. unfold normalize_entry.
    rewrite Hb. cbn [rbind add]. rewrite Ht. cbn [rbind add].
    split; [intros e Hl; now rewrite Hl |].
    intros rl Hl. rewrite Hl. cbn [rbind].
    split; [intros e Hf; now rewrite Hf |].
    intros f Hf. rewrite Hf. cbn [rbind].
    split; [intros e Hv; now rewrite Hv |].
    intros rv Hv. rewrite Hv. cbn [rbind].
    split; [intros e Hg; now rewrite Hg |].
    intros g Hg. rewrite Hg. cbn [rbind].
    split; [intros e Hc; now rewrite Hc |].
    intros cv Hc. rewrite Hc. cbn [rbind].
    split; [intros e Hu; now rewrite Hu |].
    intros ru Hu. rewrite Hu. cbn [rbind].
    split; [intros e Hq; now rewrite Hq |].
    intros q Hq. now rewrite Hq.
Qed.

(** ** The transport *)

(** X9: [fetch_data] makes one request, for the URL it is given, and does
    not touch the registry, whatever comes back; it returns the decoded
    body exactly when the reply has status 200 and a JSON body, and a reply
    with another status raises the error that carries it, whatever its
    body. *)
Theorem fetch_data_contract
    (net : list event -> string -> reply) (url : string) (w : world) :
  snd (fetch_data net url w) = mkWorld (markets w) (log w ++ [Get url]) /\
  (forall data,
      fst (fetch_data net url w) = Return data <->
      net (log w) url = Reply 200 (Some data)) /\
  (forall status body,
      net (log w) url = Reply status body -> status <> 200%Z ->
      fst (fetch_data net url w) = Raise (FetchError status)) /\
  fst (fetch_data net url w) <> Unmodelled.
Proof.
  unfold fetch_data, bind, http_get.
  destruct (net (log w) url) as [| status [data |]] eqn:E; cbn [fst snd];
    try destruct (Z.eqb_spec status 200) as [-> | Hne];
    cbn [ret raise fst snd];
    repeat split; intros; congruence.
Qed.

(** ** More on loading the markets *)

Lemma register_ids (items : list json) (ids : list string) :
  Forall2 has_id items ids ->
  forall w,
    register items w =
    (Return tt,
     mkWorld (PyDict.update (markets w) (identity_pairs ids)) (log w)).
Proof.
  induction 1 as [| item s items ids Hs _ IH]; intros w.
  - now destruct w.
  - cbn [register]. unfold bind at 1, lift. rewrite Hs.
    unfold bind at 1, set_market. rewrite IH. reflexivity.
Qed.

Lemma register_stops (good : list json) (ids : list string)
    (bad : json) (rest : list json) (e : exn) :
  Forall2 has_id good ids ->
  getitem bad "id" = Raise e ->
  forall w,
    register (good ++ bad :: rest) w =
    (Raise e,
     mkWorld (PyDict.update (markets w) (identity_pairs ids)) (log w)).
Proof.
  induction 1 as [| item s items ids Hs _ IH]; intros Hbad w.
  - cbn [app register]. unfold bind at 1, lift. rewrite Hbad.
    now destruct w.
  - cbn [app register]. unfold bind at 1, lift. rewrite Hs.
    unfold bind at 1, set_market. rewrite IH by assumption. reflexivity.
Qed.

Lemma load_markets_on_listing
    (net : list event -> string -> reply) (w : world)
    (data : json) (items : list json) :
  net (log w) listing_url = Reply 200 (Some data) ->
  iterate data = Return items ->
  load_markets net w =
  register items (mkWorld (markets w) (log w ++ [Get listing_url])).
Proof.
  intros Hnet Hit. rewrite load_markets_unfold, Hnet. cbv zeta.
  change (200 =? 200)%Z with true. cbv iota. now rewrite Hit.
Qed.

(** X10: when the listing request is answered with status 200 and a list
    whose items all carry a string identifier, [load_markets] returns
    after its one request, and the registry is the old one updated with an
    identity entry per identifier, in the order of the listing. *)
Theorem load_markets_registers_listing
    (net : list event -> string -> reply) (w : world)
    (data : json) (items : list json) (ids : list string) :
  net (log w) listing_url = Reply 200 (Some data) ->
  iterate data = Return items ->
  Forall2 has_id items ids ->
  load_markets net w =
  (Return tt,
   mkWorld (PyDict.update (markets w) (identity_pairs ids))
           (log w ++ [Get listing_url])).
Proof.
  intros Hnet Hit Hids.
  rewrite (load_markets_on_listing net w data items Hnet Hit).
  now rewrite (register_ids _ _ Hids).
Qed.

(** X11: [load_markets] is not atomic when an item is at fault. When the
    identifier of an item cannot be read (the item has no ["id"], or is not
    an object), [load_markets] raises that exception and the identifiers of
    the items before it stay registered. *)
Theorem load_markets_stops_at_bad_item
    (net : list event -> string -> reply) (w : world)
    (data : json) (good : list json) (ids : list string)
    (bad : json) (rest : list json) (e : exn) :
  net (log w) listing_url = Reply 200 (Some data) ->
  iterate data = Return (good ++ bad :: rest) ->
  Forall2 has_id good ids ->
  getitem bad "id" = Raise e ->
  load_markets net w =
  (Raise e,
   mkWorld (PyDict.update (markets w) (identity_pairs ids))
           (log w ++ [Get listing_url])).
Proof.
  intros Hnet Hit Hids Hbad.
  rewrite (load_markets_on_listing net w data _ Hnet Hit).
  now rewrite (register_stops _ _ _ _ _ Hids Hbad).
Qed.

Lemma set_present {V} (k : string) (v : V) (d : PyDict.t V) :
  PyDict.get k d = Some v -> PyDict.set k v d = d.
Proof.
  induction d as [| [k' v'] d IH]; cbn [PyDict.get PyDict.set];
    [discriminate |].
  destruct (String.eqb k k') eqn:E.
  - intros H. now injection H as ->.
  - intros H. now rewrite IH.
Qed.

Lemma update_present {V} (l : list (string * V)) : forall d,
  (forall k v, In (k, v) l -> PyDict.get k d = Some v) ->
  PyDict.update d l = d.
Proof.
  unfold PyDict.update.
  induction l as [| [k v] l IH]; intros d H; cbn [fold_left fst snd];
    [reflexivity |].
  rewrite set_present by (apply H; now left).
  apply IH. intros k' v' Hin. apply H. now right.
Qed.

Lemma get_identity_pairs (s : string) (ids : list string) :
  In s ids -> PyDict.get s (identity_pairs ids) = Some s.
Proof.
  induction ids as [| s' ids IH]; intros Hin; [destruct Hin |].
  cbn [identity_pairs map PyDict.get].
  destruct (String.eqb_spec s s') as [-> | Hne]; [reflexivity |].
  destruct Hin as [-> | Hin]; [now destruct Hne | now apply IH].
Qed.

Lemma get_update_identity (s : string) (ids : list string)
    (d : PyDict.t string) :
  In s ids -> PyDict.get s (PyDict.update d (identity_pairs ids)) = Some s.
Proof.
  intros Hin. rewrite PyDictFacts.get_update. unfold PyDict.last_binding.
  unfold identity_pairs. rewrite <- map_rev.
  change (map (fun s0 => (s0, s0)) (rev ids)) with (identity_pairs (rev ids)).
  rewrite get_identity_pairs; [reflexivity | now apply in_rev in Hin].
Qed.

(** X12: loading the same listing a second time changes nothing in the
    registry: no entry is added twice, none is moved. *)
Theorem load_markets_again_keeps_registry
    (net : list event -> string -> reply) (w : world)
    (data : json) (items : list json) (ids : list string) :
  net (log w) listing_url = Reply 200 (Some data) ->
  net (log w ++ [Get listing_url]) listing_url = Reply 200 (Some data) ->
  iterate data = Return items ->
  Forall2 has_id items ids ->
  fst (load_markets net (snd (load_markets net w))) = Return tt /\
  markets (snd (load_markets net (snd (load_markets net w)))) =
  markets (snd (load_markets net w)).
Proof.
  intros Hnet1 Hnet2 Hit Hids.
  rewrite (load_markets_on_listing net w data items Hnet1 Hit).
  rewrite (register_ids _ _ Hids). cbn [snd markets log].
  rewrite (load_markets_on_listing net
             (mkWorld (PyDict.update (markets w) (identity_pairs ids))
                      (log w ++ [Get listing_url]))
             data items Hnet2 Hit).
  rewrite (register_ids _ _ Hids).
  cbn [fst snd markets]. split; [reflexivity |].
  apply update_present. intros k v Hin.
  unfold identity_pairs in Hin. apply in_map_iff in Hin.
  destruct Hin as (s & Hs & Hin). injection Hs as <- <-.
  now apply get_update_identity.
Qed.

(** ** More on fetching the tickers *)

(** X13: a listing without markets. When the registry is empty and the
    listing holds no item, [fetch_tickers] returns the empty mapping after
    the listing request alone, with no ticker request and no sleep, and the
    registry is still empty, so the next call asks for the listing again. *)
Theorem fetch_tickers_empty_listing
    (net : list event -> string -> reply) (w : world) (data : json) :
  markets w = [] ->
  net (log w) listing_url = Reply 200 (Some data) ->
  iterate data = Return [] ->
  fetch_tickers net w =
  (Return [], mkWorld [] (log w ++ [Get listing_url])).
Proof.
  intros Hempty Hnet Hit. rewrite fetch_tickers_unfold, Hempty.
  rewrite (load_markets_on_listing net w data [] Hnet Hit).
  cbn [register ret]. rewrite Hempty. reflexivity.
Qed.

(** X14: when the registry is empty and [load_markets] raises,
    [fetch_tickers] raises the same exception and stops there: it leaves
    the state [load_markets] left, with the listing request as its only
    event. *)
Theorem fetch_tickers_load_failure
    (net : list event -> string -> reply) (w : world) (e : exn) :
  markets w = [] ->
  fst (load_markets net w) = Raise e ->
  fetch_tickers net w = (Raise e, snd (load_markets net w)) /\
  log (snd (fetch_tickers net w)) = log w ++ [Get listing_url].
Proof.
  intros Hempty Hload. rewrite fetch_tickers_unfold, Hempty.
  destruct (load_markets_shape net w) as [Hlog _].
  destruct (load_markets net w) as [[u | e' |] w1]; cbn [fst snd] in *;
    try discriminate.
  injection Hload as ->. auto.
Qed.

(** X15: for a call of [fetch_tickers] on any instance, its registry
    filled before or loaded by the call itself (the load returning): a
    market whose request is answered with a status other than 200, or with
    a body that has no ["tickers"], ends the fetch with that exception,
    whatever the markets before it gave. *)
Theorem fetch_tickers_market_reply_failure
    (net : list event -> string -> reply) (w : world)
    (batch_of : string -> PyDict.t TickerInfo)
    (before : list string) (m : string) (after : list string) :
  (markets w = [] -> fst (load_markets net w) = Return tt) ->
  PyDict.values (fetch_registry net w) = before ++ m :: after ->
  (forall m' h, In m' before ->
                ticker_batch (net h (ticker_url m')) = Return (batch_of m')) ->
  (forall status body,
      (forall h, net h (ticker_url m) = Reply status body) ->
      status <> 200%Z ->
      fst (fetch_tickers net w) = Raise (FetchError status)) /\
  (forall data e,
      (forall h, net h (ticker_url m) = Reply 200 (Some data)) ->
      getitem data "tickers" = Raise e ->
      fst (fetch_tickers net w) = Raise e).
Proof.
  intros Hload Hvalues Hok.
  rewrite (fetch_tickers_over_registry net w Hload), Hvalues. split.
  - intros status body Hnet Hne.
    apply fetch_loop_raises_exactly with (batch_of := batch_of);
      [exact Hok |].
    intros h. rewrite Hnet. cbn [ticker_batch].
    apply Z.eqb_neq in Hne. now rewrite Hne.
  - intros data e Hnet Hbody.
    apply fetch_loop_raises_exactly with (batch_of := batch_of);
      [exact Hok |].
    intros h. rewrite Hnet. cbn [ticker_batch].
    change (200 =? 200)%Z with true. cbv iota. now rewrite Hbody.
Qed.

Lemma get_In {V} (k : string) (v : V) (d : PyDict.t V) :
  PyDict.get k d = Some v -> In (k, v) d.
Proof.
  induction d as [| [k' v'] d IH]; cbn [PyDict.get]; [discriminate |].
  destruct (String.eqb_spec k k') as [-> | Hne].
  - intros H. injection H as ->. now left.
  - intros H. right. now apply IH.
Qed.

Lemma get_fold_update_origin
    (batch_of : string -> PyDict.t TickerInfo) (s : Symbol) (t : TickerInfo)
    (symbols : list string) :
  forall result,
    PyDict.get s (fold_left (fun acc m => PyDict.update acc (batch_of m))
                            symbols result) = Some t ->
    PyDict.get s result = Some t \/
    exists m, In m symbols /\ In (s, t) (batch_of m).
Proof.
  induction symbols as [| m rest IH]; intros result H; cbn [fold_left] in H.
  - now left.
  - destruct (IH _ H) as [H' | (m' & Hin & Hm')].
    + rewrite PyDictFacts.get_update in H'. unfold PyDict.last_binding in H'.
      destruct (PyDict.get s (rev (batch_of m))) as [v |] eqn:E.
      * injection H' as ->. right. exists m. split; [now left |].
        apply get_In in E. now apply in_rev in E.
      * now left.
    + right. exists m'. split; [now right | exact Hm'].
Qed.

(** X16: when every market of a registry that is not empty answers with a
    batch that normalises, [fetch_tickers] returns the batches merged in
    the order of the registry, starting from an empty mapping; every
    record it returns is a record of one of the batches, and the registry
    is unchanged. *)
Theorem fetch_tickers_merges_batches
    (net : list event -> string -> reply) (w : world)
    (batch_of : string -> PyDict.t TickerInfo) :
  markets w <> [] ->
  (forall m h, In m (PyDict.values (markets w)) ->
               ticker_batch (net h (ticker_url m)) = Return (batch_of m)) ->
  fst (fetch_tickers net w) =
  Return (fold_left (fun acc m => PyDict.update acc (batch_of m))
                    (PyDict.values (markets w)) []) /\
  markets (snd (fetch_tickers net w)) = markets w /\
  (forall result s t,
      fst (fetch_tickers net w) = Return result ->
      PyDict.get s result = Some t ->
      exists m, In m (PyDict.values (markets w)) /\ In (s, t) (batch_of m)).
Proof.
  intros Hne Hnet.
  assert (Hloop : fetch_tickers net w =
                  fetch_loop net (PyDict.values (markets w)) [] w).
  { rewrite fetch_tickers_unfold. destruct (markets w); [now destruct Hne |].
    reflexivity. }
  rewrite Hloop, (fetch_loop_merges net batch_of _ Hnet).
  split; [reflexivity |]. split.
  - now destruct (fetch_loop_shape net (PyDict.values (markets w)) [] w).
  - intros result s t Hres Hget. injection Hres as <-.
    destruct (get_fold_update_origin _ _ _ _ _ Hget) as [H | H];
      [discriminate H | exact H].
Qed.

Lemma requests_app (l1 l2 : list event) :
  requests (l1 ++ l2) = requests l1 ++ requests l2.
Proof.
  induction l1 as [| [url | line | n] l1 IH]; cbn [app requests];
    now rewrite ?IH.
Qed.

Lemma total_sleep_app (l1 l2 : list event) :
  total_sleep (l1 ++ l2) = (total_sleep l1 + total_sleep l2)%Z.
Proof.
  induction l1 as [| [url | line | n] l1 IH]; cbn [app total_sleep];
    rewrite ?IH; lia.
Qed.

Lemma requests_market_events (symbols : list string) :
  requests (flat_map market_events symbols) = map ticker_url symbols.
Proof.
  induction symbols as [| m rest IH]; [reflexivity |].
  cbn [flat_map map]. rewrite requests_app, IH. reflexivity.
Qed.

Lemma total_sleep_market_events (symbols : list string) :
  total_sleep (flat_map market_events symbols)
  = (15 * Z.of_nat (length symbols))%Z.
Proof.
  induction symbols as [| m rest IH]; [reflexivity |].
  cbn [flat_map length]. rewrite total_sleep_app, IH.
  cbn [market_events total_sleep]. lia.
Qed.

(** What a run of the loop that returns requested and slept. *)
Lemma fetch_loop_requests
    (net : list event -> string -> reply) (symbols : list string)
    (result : PyDict.t TickerInfo) (w : world) (d : PyDict.t TickerInfo) :
  fst (fetch_loop net symbols result w) = Return d ->
  exists events,
    log (snd (fetch_loop net symbols result w)) = log w ++ events /\
    requests events = map ticker_url symbols /\
    total_sleep events = (15 * Z.of_nat (length symbols))%Z.
Proof.
  intros Hret.
  destruct (fetch_loop_shape net symbols result w)
    as (_ & done & todo & tail & Hsplit & Hlog & Hout).
  rewrite Hret in Hout. destruct Hout as [-> ->].
  rewrite app_nil_r in Hsplit, Hlog. subst done.
  exists (flat_map market_events symbols). split; [exact Hlog |].
  split; [apply requests_market_events | apply total_sleep_market_events].
Qed.

(** X17: a call of [fetch_tickers] that returns has requested the listing
    first if the registry was empty, then the ticker endpoint of each
    market of the registry once, in order, and nothing else; it has slept
    15 seconds per market. *)
Theorem fetch_tickers_requests_and_sleep
    (net : list event -> string -> reply) (w : world)
    (result : PyDict.t TickerInfo) :
  fst (fetch_tickers net w) = Return result ->
  exists events,
    log (snd (fetch_tickers net w)) = log w ++ events /\
    requests events =
      match markets w with [] => [listing_url] | _ :: _ => [] end
      ++ map ticker_url (PyDict.values (markets (snd (fetch_tickers net w)))) /\
    total_sleep events =
      (15 * Z.of_nat
              (length (PyDict.values (markets (snd (fetch_tickers net w))))))%Z.
Proof.
  rewrite fetch_tickers_unfold. destruct (markets w) as [| kv ms] eqn:Em.
  - destruct (load_markets_shape net w) as [Hlog _].
    destruct (load_markets net w) as [[u | e |] w1]; cbn [fst snd] in *;
      try discriminate.
    intros Hret.
    destruct (fetch_loop_requests _ _ _ _ _ Hret) as (events & Hl & Hr & Hs).
    destruct (fetch_loop_shape net (PyDict.values (markets w1)) [] w1)
      as [Hm _].
    exists (Get listing_url :: events). rewrite Hm. split.
    + rewrite Hl, Hlog, <- app_assoc. reflexivity.
    + cbn [requests total_sleep app]. now rewrite Hr, Hs.
  - rewrite <- Em. intros Hret.
    destruct (fetch_loop_requests _ _ _ _ _ Hret) as (events & Hl & Hr & Hs).
    destruct (fetch_loop_shape net (PyDict.values (markets w)) [] w)
      as [Hm _].
    exists events. rewrite Hm. auto.
Qed.

(** ** The entry point *)

Lemma set_absent {V} (k : string) (v : V) (d : PyDict.t V) :
  PyDict.get k d = None -> PyDict.set k v d = d ++ [(k, v)].
Proof.
  induction d as [| [k' v'] d IH]; cbn [PyDict.get PyDict.set app];
    [reflexivity |].
  destruct (String.eqb k k'); [discriminate |].
  intros H. now rewrite IH.
Qed.

Lemma update_fresh {V} (l : list (string * V)) : forall d,
  NoDup (map fst l) ->
  (forall k, In k (map fst l) -> PyDict.get k d = None) ->
  PyDict.update d l = d ++ l.
Proof.
  unfold PyDict.update.
  induction l as [| [k v] l IH]; intros d Hnd Hfresh;
    cbn [fold_left fst snd map] in *.
  - now rewrite app_nil_r.
  - inversion Hnd as [| ? ? Hnotin Hnd']; subst.
    rewrite set_absent by (apply Hfresh; now left).
    rewrite IH; [now rewrite <- app_assoc | exact Hnd' |].
    intros k' Hin. rewrite PyDictFacts.get_app, Hfresh by now right.
    cbn [PyDict.get]. destruct (String.eqb_spec k' k) as [-> | _];
      [contradiction | reflexivity].
Qed.

Lemma registry_of_distinct_ids (ids : list string) :
  NoDup ids ->
  PyDict.update [] (identity_pairs ids) = identity_pairs ids /\
  PyDict.values (identity_pairs ids) = ids.
Proof.
  intros Hnd. unfold identity_pairs, PyDict.values. split.
  - rewrite update_fresh; [reflexivity | |].
    + rewrite map_map. cbn [fst]. now rewrite map_id.
    + reflexivity.
  - rewrite map_map. cbn [snd]. apply map_id.
Qed.

Section MainRun.

Variable net : list event -> string -> reply.
Variable show_markets : PyDict.t string -> string.
Variable show_ticker : TickerInfo -> string.

Lemma print_items_run (items : list (Symbol * TickerInfo)) : forall w,
  print_items show_ticker items w =
  (Return tt, mkWorld (markets w) (log w ++ map (item_line show_ticker) items)).
Proof.
  induction items as [| [s t] items IH]; intros w.
  - cbn [print_items map ret]. rewrite app_nil_r. now destruct w.
  - cbn [print_items]. unfold bind at 1, emit. rewrite IH.
    cbn [markets log map]. now rewrite <- app_assoc.
Qed.

Lemma requests_item_lines (items : list (Symbol * TickerInfo)) :
  requests (map (item_line show_ticker) items) = [] /\
  total_sleep (map (item_line show_ticker) items) = 0%Z.
Proof. induction items as [| kv items [IH1 IH2]]; split; auto. Qed.

(** [main], by what its two calls give. *)
Lemma main_unfold (w : world) :
  main net show_markets show_ticker w =
  match load_markets net (mkWorld [] (log w)) with
  | (Return _, w1) =>
      match fetch_tickers net
              (mkWorld (markets w1)
                       (log w1 ++ [Print (show_markets (markets w1))])) with
      | (Return tickers, w3) => print_items show_ticker tickers w3
      | (Raise e, w3) => (Raise e, w3)
      | (Unmodelled, w3) => (Unmodelled, w3)
      end
  | (Raise e, w1) => (Raise e, w1)
  | (Unmodelled, w1) => (Unmodelled, w1)
  end.
Proof.
  unfold main, bind at 1. cbn [markets init].
  destruct (load_markets net (mkWorld [] (log w))) as [[u | e |] w1];
    reflexivity.
Qed.

End MainRun.

Lemma fetch_tickers_on_registry
    (net : list event -> string -> reply) (w : world) :
  markets w <> [] ->
  fetch_tickers net w = fetch_loop net (PyDict.values (markets w)) [] w.
Proof.
  intros Hne. rewrite fetch_tickers_unfold.
  destruct (markets w); [now destruct Hne | reflexivity].
Qed.

(** X18: a run of [main] in which the listing gives distinct string
    identifiers, at least one, and every market answers with a batch that
    normalises: [main] returns, having requested the listing once, first,
    and then the ticker endpoint of each listed market once, in the order of
    the listing (the explicit [load_markets] fills the registry, so
    [fetch_tickers] does not load again), with 15 seconds of sleep per
    market. *)
Theorem main_requests_each_market_once
    (net : list event -> string -> reply)
    (show_markets : PyDict.t string -> string)
    (show_ticker : TickerInfo -> string)
    (w : world) (data : json) (items : list json) (ids : list string)
    (batch_of : string -> PyDict.t TickerInfo) :
  net (log w) listing_url = Reply 200 (Some data) ->
  iterate data = Return items ->
  Forall2 has_id items ids ->
  NoDup ids -> ids <> [] ->
  (forall m h, In m ids ->
               ticker_batch (net h (ticker_url m)) = Return (batch_of m)) ->
  fst (main net show_markets show_ticker w) = Return tt /\
  markets (snd (main net show_markets show_ticker w)) = identity_pairs ids /\
  exists events,
    log (snd (main net show_markets show_ticker w)) = log w ++ events /\
    requests events = listing_url :: map ticker_url ids /\
    total_sleep events = (15 * Z.of_nat (length ids))%Z.
Proof.
  intros Hnet Hit Hids Hnd Hne Hok.
  destruct (registry_of_distinct_ids ids Hnd) as [Hreg Hval].
  rewrite main_unfold.
  rewrite (load_markets_on_listing net (mkWorld [] (log w)) data items Hnet Hit).
  rewrite (register_ids _ _ Hids). cbn [markets log]. rewrite Hreg.
  set (w2 := mkWorld (identity_pairs ids) _).
  assert (Hw2 : markets w2 <> []).
  { cbn [w2 markets]. destruct ids; [now destruct Hne | discriminate]. }
  rewrite (fetch_tickers_on_registry net w2 Hw2).
  cbn [w2 markets]. rewrite Hval. fold w2.
  pose proof (fetch_loop_merges net batch_of ids Hok [] w2) as Hret.
  destruct (fetch_loop_requests net ids [] w2 _ Hret)
    as (events & Hlog & Hreq & Hsleep).
  destruct (fetch_loop_shape net ids [] w2) as [Hm _].
  destruct (fetch_loop net ids [] w2) as [[tickers | e |] w3];
    cbn [fst snd] in *; try discriminate.
  rewrite print_items_run. cbn [fst snd markets log].
  split; [reflexivity |]. split; [exact Hm |].
  exists ([Get listing_url; Print (show_markets (identity_pairs ids))]
          ++ events ++ map (item_line show_ticker) tickers).
  destruct (requests_item_lines show_ticker tickers) as [Hr0 Hs0].
  split; [| split].
  - rewrite Hlog. cbn [w2 log]. now rewrite <- !app_assoc.
  - cbn [app requests]. now rewrite requests_app, Hreq, Hr0, app_nil_r.
  - cbn [app total_sleep]. rewrite total_sleep_app, Hsleep, Hs0. lia.
Qed.

(** X19: a run of [main] on a listing without markets. The explicit
    [load_markets] leaves the registry empty, so [fetch_tickers] loads
    again: [main] returns after two listing requests, with the registry
    printed in between, no ticker request and no sleep. *)
Theorem main_empty_listing_loads_twice
    (net : list event -> string -> reply)
    (show_markets : PyDict.t string -> string)
    (show_ticker : TickerInfo -> string)
    (w : world) (data : json) :
  (forall h, net h listing_url = Reply 200 (Some data)) ->
  iterate data = Return [] ->
  main net show_markets show_ticker w =
  (Return tt,
   mkWorld []
     (log w ++ [Get listing_url; Print (show_markets []); Get listing_url])).
Proof.
  intros Hnet Hit. rewrite main_unfold.
  rewrite (load_markets_on_listing net (mkWorld [] (log w)) data []
             (Hnet _) Hit).
  cbn [register ret markets log].
  rewrite fetch_tickers_unfold. cbn [markets].
  rewrite (load_markets_on_listing net _ data [] (Hnet _) Hit).
  cbn [register ret markets log PyDict.values map fetch_loop print_items].
  now rewrite <- !app_assoc.
Qed.

(** X20: when the explicit [load_markets] of [main] raises, [main] raises
    the same exception at once: the listing request is its only event,
    nothing is printed and no ticker is requested. *)
Theorem main_load_failure
    (net : list event -> string -> reply)
    (show_markets : PyDict.t string -> string)
    (show_ticker : TickerInfo -> string)
    (w : world) (e : exn) :
  fst (load_markets net (mkWorld [] (log w))) = Raise e ->
  fst (main net show_markets show_ticker w) = Raise e /\
  log (snd (main net show_markets show_ticker w))
  = log w ++ [Get listing_url].
Proof.
  intros Hload. rewrite main_unfold.
  destruct (load_markets_shape net (mkWorld [] (log w))) as [Hlog _].
  destruct (load_markets net (mkWorld [] (log w))) as [[u | e' |] w1];
    cbn [fst snd log] in *; try discriminate.
  injection Hload as ->. auto.
Qed.

(** ** The two transports agree *)

(** X21: [load_markets] repeats the request code of [fetch_data] inline;
    the two agree in every case: [load_markets] does what fetching the
    listing URL with [fetch_data] and registering the items of the body
    does, with the same exceptions and the same state. *)
Theorem load_markets_is_fetch_data_then_register
    (net : list event -> string -> reply) (w : world) :
  load_markets net w =
  bind (fetch_data net listing_url)
       (fun data => bind (lift (iterate data)) register) w.
Proof.
  rewrite load_markets_unfold. cbv zeta.
  unfold bind at 1, fetch_data, bind at 1, http_get.
  destruct (net (log w) listing_url) as [| status [data |]];
    try reflexivity; destruct (status =? 200)%Z; reflexivity.
Qed.

(** * Concrete runs of the further properties *)

Lemma normalize_entry_symbol_witness :
  exists base target,
    get_method (btc_entry "57000") "base" = Return (JStr base) /\
    get_method (btc_entry "57000") "target" = Return (JStr target) /\
    "BTC/USDT" = ((_convert_symbol_to_ccxt base ++ "/")
                  ++ _convert_symbol_to_ccxt target)%string.
Proof.
  apply (normalize_entry_symbol (btc_entry "57000") "BTC/USDT" btc_usdt_ticker).
  vm_compute; reflexivity.
Defined.

Lemma symbol_determines_pair_witness :
  _convert_symbol_to_ccxt (("BTC" ++ ":") ++ "USDT") = "BTC/USDT" /\
  (_convert_symbol_to_ccxt (("BTC" ++ ":") ++ "USDT")
   = _convert_symbol_to_ccxt (("ETH" ++ ":") ++ "BTC") ->
   "BTC" = "ETH" /\ "USDT" = "BTC").
Proof.
  destruct (symbol_determines_pair "BTC" "USDT" "ETH" "BTC")
    as (Hsym & Hinj & _); try reflexivity.
  split; [exact Hsym | exact Hinj].
Defined.

Lemma normalize_data_keys_witness :
  (forall s,
      In s (PyDict.keys [("BTC/USDT", btc_ticker_58000)]) <->
      exists entry t,
        In entry [btc_entry "57000"; btc_entry "58000"] /\
        normalize_entry entry = Return (s, t)) /\
  (length (PyDict.keys [("BTC/USDT", btc_ticker_58000)]) <= 2)%nat.
Proof.
  apply (normalize_data_keys
           (JList [btc_entry "57000"; btc_entry "58000"])
           [btc_entry "57000"; btc_entry "58000"]
           [("BTC/USDT", btc_ticker_58000)]).
  - reflexivity.
  - vm_compute; reflexivity.
Defined.

Lemma normalize_data_last_is_source_value_witness :
  exists results entry base target raw_last,
    iterate (JList [btc_entry "57000"]) = Return results /\
    In entry results /\
    get_method entry "base" = Return (JStr base) /\
    get_method entry "target" = Return (JStr target) /\
    "BTC/USDT" = _convert_symbol_to_ccxt ((base ++ ":") ++ target) /\
    getitem entry "last" = Return raw_last /\
    py_float raw_last = Return (last btc_usdt_ticker).
Proof.
  apply (normalize_data_last_is_source_value
           (JList [btc_entry "57000"]) [("BTC/USDT", btc_usdt_ticker)]).
  - vm_compute; reflexivity.
  - reflexivity.
Defined.

Lemma load_markets_registers_listing_witness :
  load_markets bitcoin_net init =
  (Return tt, mkWorld [("bitcoin", "bitcoin")] [Get listing_url]).
Proof.
  apply (load_markets_registers_listing
           bitcoin_net init listing_response
           [JDict [("id", JStr "bitcoin")]] ["bitcoin"]).
  - reflexivity.
  - reflexivity.
  - repeat constructor.
Defined.

Lemma load_markets_stops_at_bad_item_witness :
  load_markets bad_listing_net init =
  (Raise (KeyError "id"), mkWorld [("bitcoin", "bitcoin")] [Get listing_url]).
Proof.
  apply (load_markets_stops_at_bad_item
           bad_listing_net init listing_with_bad_item
           [JDict [("id", JStr "bitcoin")]] ["bitcoin"]
           (JDict [("symbol", JStr "btc")])
           [JDict [("id", JStr "tether")]]).
  - reflexivity.
  - reflexivity.
  - repeat constructor.
  - reflexivity.
Defined.

Lemma load_markets_again_keeps_registry_witness :
  fst (load_markets bitcoin_net (snd (load_markets bitcoin_net init)))
  = Return tt /\
  markets (snd (load_markets bitcoin_net (snd (load_markets bitcoin_net init))))
  = markets (snd (load_markets bitcoin_net init)).
Proof.
  apply (load_markets_again_keeps_registry
           bitcoin_net init listing_response
           [JDict [("id", JStr "bitcoin")]] ["bitcoin"]).
  - reflexivity.
  - reflexivity.
  - reflexivity.
  - repeat constructor.
Defined.

Lemma fetch_tickers_empty_listing_witness :
  fetch_tickers empty_listing_net init =
  (Return [], mkWorld [] [Get listing_url]).
Proof.
  apply (fetch_tickers_empty_listing empty_listing_net init (JList [])).
  - reflexivity.
  - reflexivity.
  - reflexivity.
Defined.

Lemma fetch_tickers_load_failure_witness :
  fetch_tickers not_found_net init
  = (Raise (FetchError 404), snd (load_markets not_found_net init)) /\
  log (snd (fetch_tickers not_found_net init)) = [Get listing_url].
Proof.
  apply (fetch_tickers_load_failure not_found_net init (FetchError 404)).
  - reflexivity.
  - reflexivity.
Defined.

Lemma fetch_tickers_market_reply_failure_witness :
  markets init = [] /\
  PyDict.values (fetch_registry (with_listing second_market_down_net) init)
  = ["bitcoin"; "wrapped-bitcoin"] /\
  fst (fetch_tickers (with_listing second_market_down_net) init)
  = Raise (FetchError 503).
Proof.
  split; [reflexivity |]. split; [vm_compute; reflexivity |].
  destruct (fetch_tickers_market_reply_failure
              (with_listing second_market_down_net) init bitcoin_batch
              ["bitcoin"] "wrapped-bitcoin" []) as [Hstatus _].
  - intros _. vm_compute; reflexivity.
  - vm_compute; reflexivity.
  - intros m h [<- | []]. vm_compute; reflexivity.
  - apply (Hstatus 503%Z None).
    + intros h. reflexivity.
    + lia.
Defined.

Lemma fetch_tickers_merges_batches_witness :
  fst (fetch_tickers two_markets_net two_markets)
  = Return [("BTC/USDT", btc_ticker_58000)] /\
  markets (snd (fetch_tickers two_markets_net two_markets))
  = markets two_markets.
Proof.
  destruct (fetch_tickers_merges_batches
              two_markets_net two_markets two_markets_batch)
    as (Hres & Hm & _).
  - discriminate.
  - intros m h [<- | [<- | []]]; vm_compute; reflexivity.
  - split; [exact Hres | exact Hm].
Defined.

Lemma fetch_tickers_requests_and_sleep_witness :
  exists events,
    log (snd (fetch_tickers two_markets_net two_markets))
    = log two_markets ++ events /\
    requests events =
      [] ++ map ticker_url
              (PyDict.values
                 (markets (snd (fetch_tickers two_markets_net two_markets)))) /\
    total_sleep events =
      (15 * Z.of_nat
              (length
                 (PyDict.values
                    (markets
                       (snd (fetch_tickers two_markets_net two_markets))))))%Z.
Proof.
  apply (fetch_tickers_requests_and_sleep
           two_markets_net two_markets [("BTC/USDT", btc_ticker_58000)]).
  vm_compute; reflexivity.
Defined.

Lemma main_requests_each_market_once_witness :
  fst (main bitcoin_net blank_markets blank_ticker init) = Return tt /\
  markets (snd (main bitcoin_net blank_markets blank_ticker init))
  = [("bitcoin", "bitcoin")] /\
  exists events,
    log (snd (main bitcoin_net blank_markets blank_ticker init))
    = log init ++ events /\
    requests events = [listing_url; ticker_url "bitcoin"] /\
    total_sleep events = 15%Z.
Proof.
  apply (main_requests_each_market_once
           bitcoin_net blank_markets blank_ticker init listing_response
           [JDict [("id", JStr "bitcoin")]] ["bitcoin"] bitcoin_batch).
  - reflexivity.
  - reflexivity.
  - repeat constructor.
  - repeat constructor. intros [].
  - discriminate.
  - intros m h [<- | []]. vm_compute; reflexivity.
Defined.

Lemma main_empty_listing_loads_twice_witness :
  main empty_listing_net blank_markets blank_ticker init =
  (Return tt,
   mkWorld [] [Get listing_url; Print ""; Get listing_url]).
Proof.
  apply (main_empty_listing_loads_twice
           empty_listing_net blank_markets blank_ticker init (JList [])).
  - intros h. reflexivity.
  - reflexivity.
Defined.

Lemma main_load_failure_witness :
  fst (main not_found_net blank_markets blank_ticker init)
  = Raise (FetchError 404) /\
  log (snd (main not_found_net blank_markets blank_ticker init))
  = [Get listing_url].
Proof.
  apply (main_load_failure
           not_found_net blank_markets blank_ticker init (FetchError 404)).
  reflexivity.
Defined.
